(** * morpho_typing: schema definition and record validation

    A shallow embedding of [src/morpho_typing/types.py]: the [ArcType]
    enumeration, the [Field] model with its range validator, and
    [ArcSchema] with [parameter_models] and [validate_record].

    The Python module delegates coercion and bound checking to the pydantic
    library.  The part of pydantic the module relies on is modelled in
    [Module Pydantic]: lax-mode coercion to [int], [float] and [str], the
    [ge]/[le] constraints of [pydantic.Field], and the length constraints of
    a list field.  Parsing of text into numbers is left as an interface
    ([TextParsers]); every statement below holds for any parser. *)

From Stdlib Require Import ZArith List Ascii String Bool Lia.
From Stdlib Require Import Floats.SpecFloat.
Import ListNotations.
Open Scope Z_scope.

(** ** Python numbers *)

Module Py.

(** A Python [float] is an IEEE 754 binary64 value. *)
Definition float := spec_float.
Definition prec : Z := 53.
Definition emax : Z := 1024.

(** [int | float], the element type of [Field.field_range]. *)
Inductive number :=
| Int (z : Z)
| Float (f : float).

(** [int | str | float], the element type of a record. *)
Inductive value :=
| VInt (z : Z)
| VStr (s : string)
| VFloat (f : float).

Definition value_of_number (n : number) : value :=
  match n with
  | Int z => VInt z
  | Float f => VFloat f
  end.

(** The numeric content of a number: not-a-number, an infinity, or the
    exact dyadic rational [m * 2 ^ e]. *)
Inductive xreal :=
| XNaN
| XInf (negative : bool)
| XFin (m e : Z).

Definition xreal_of_float (f : float) : xreal :=
  match f with
  | S754_zero _ => XFin 0 0
  | S754_infinity s => XInf s
  | S754_nan => XNaN
  | S754_finite s m e => XFin (if s then Z.neg m else Z.pos m) e
  end.

Definition xreal_of_number (n : number) : xreal :=
  match n with
  | Int z => XFin z 0
  | Float f => xreal_of_float f
  end.

(** Exact comparison of [m1 * 2 ^ e1] with [m2 * 2 ^ e2]. *)
Definition fin_compare (m1 e1 m2 e2 : Z) : comparison :=
  let e := Z.min e1 e2 in
  (m1 * 2 ^ (e1 - e) ?= m2 * 2 ^ (e2 - e)).

(** Python compares [int] and [float] operands by their exact values;
    every comparison with a NaN is false ([None] here). *)
Definition xcompare (x y : xreal) : option comparison :=
  match x, y with
  | XNaN, _ | _, XNaN => None
  | XInf true, XInf true => Some Eq
  | XInf false, XInf false => Some Eq
  | XInf true, _ => Some Lt
  | XInf false, _ => Some Gt
  | _, XInf true => Some Gt
  | _, XInf false => Some Lt
  | XFin m1 e1, XFin m2 e2 => Some (fin_compare m1 e1 m2 e2)
  end.

Definition compare (a b : number) : option comparison :=
  xcompare (xreal_of_number a) (xreal_of_number b).

(** [a >= b], [a <= b], [a < b], [a > b], [a == b] *)
Definition ge (a b : number) : bool :=
  match compare a b with Some Gt | Some Eq => true | _ => false end.
Definition le (a b : number) : bool :=
  match compare a b with Some Lt | Some Eq => true | _ => false end.
Definition lt (a b : number) : bool :=
  match compare a b with Some Lt => true | _ => false end.
Definition gt (a b : number) : bool :=
  match compare a b with Some Gt => true | _ => false end.
Definition eq (a b : number) : bool :=
  match compare a b with Some Eq => true | _ => false end.

Definition float_le (a b : float) : bool := le (Float a) (Float b).
Definition float_ge (a b : float) : bool := ge (Float a) (Float b).

(** [float(z)]: round to nearest, ties to even; [None] stands for the
    [OverflowError] of an integer beyond the largest float. *)
Definition float_of_int (z : Z) : option float :=
  match binary_normalize prec emax z 0 false with
  | S754_infinity _ => None
  | f => Some f
  end.

(** The integer a finite float with no fractional part stands for. *)
Definition integral_value (f : float) : option Z :=
  match xreal_of_float f with
  | XFin m e =>
      if 0 <=? e then Some (m * 2 ^ e)
      else if m mod 2 ^ (- e) =? 0 then Some (m / 2 ^ (- e))
      else None
  | _ => None
  end.

Definition is_finite (f : float) : bool :=
  match f with
  | S754_zero _ | S754_finite _ _ _ => true
  | _ => false
  end.

End Py.

(** ** [ArcType] *)

Inductive ArcType :=
| INT
| DOUBLE
| FLOAT
| STRING.

Inductive NativeType :=
| py_int
| py_float
| py_str.

(** [ArcType.native_type]: the [python_types] dictionary, which has an entry
    for each member. *)
Definition native_type (self : ArcType) : NativeType :=
  match self with
  | INT => py_int
  | DOUBLE => py_float
  | FLOAT => py_float
  | STRING => py_str
  end.

Definition is_numeric (t : ArcType) : bool :=
  match t with
  | STRING => false
  | _ => true
  end.

(** ** The pydantic library, as far as the module uses it *)

(** Error messages, one constructor per message template; the arguments are
    the values the template interpolates. *)
Inductive Msg :=
| too_short (actual : nat)
    (* List should have at least 2 items after validation, not {actual} *)
| too_long (actual : nat)
    (* List should have at most 2 items after validation, not {actual} *)
| value_error (range : list Py.number) (low high : Py.number)
    (* Value error, range {range} is not valid;
       {low} is not lesser than {high} *)
| int_parsing
    (* Input should be a valid integer,
       unable to parse string as an integer *)
| int_from_float
    (* Input should be a valid integer, got a number with a fractional part *)
| int_parsing_size
    (* Unable to parse input string as an integer, exceeded maximum size *)
| finite_number
    (* Input should be a finite number *)
| float_parsing
    (* Input should be a valid number, unable to parse string as a number *)
| float_type
    (* Input should be a valid number *)
| string_type
    (* Input should be a valid string *)
| greater_than_equal (bound : Py.number)
    (* Input should be greater than or equal to {bound} *)
| less_than_equal (bound : Py.number).
    (* Input should be less than or equal to {bound} *)

(** Exceptions that leave the module's functions. *)
Inductive Exn :=
| ValidationError (errors : list Msg)
    (* pydantic.ValidationError; [errors] is [e.errors()] by message *)
| TypeError (constraint : string) (supplied : Py.value)
    (* Unable to apply constraint '{constraint}' to supplied value *)
| SchemaError (constraint : string)
    (* '{constraint}' must be coercible to the schema's number type *)
| IndexError
| LengthMismatch (parameters : nat).
    (* Exception: Length of record does not match number of parameters {n} *)

Inductive result (A : Type) :=
| Ok (a : A)
| Raise (e : Exn).
Arguments Ok {A} a.
Arguments Raise {A} e.

Definition rbind {A B} (r : result A) (k : A -> result B) : result B :=
  match r with
  | Ok a => k a
  | Raise e => Raise e
  end.

Notation "x <- r ;; k" := (rbind r (fun x => k))
  (at level 61, r at next level, right associativity).

(** Lax-mode reading of text as a number, the one part of coercion that is
    left open: [None] is a parse failure.  A text that is not read as an
    integer because it has too many digits is reported with a message of
    its own; [int_text_too_long] tells such texts. *)
Class TextParsers := {
  str_as_int : string -> option Z;
  str_as_float : string -> option Py.float;
  int_text_too_long : string -> bool
}.

Module Pydantic.

(** The outcome of validating one input against one model. *)
Inductive Outcome :=
| Valid (v : Py.value)
| Invalid (msg : Msg)      (* a ValidationError whose first message is msg *)
| Crash (e : Exn).         (* any other exception *)

(** Lax conversion of a float to an int: finite, no fractional part, and
    strictly between -2^63 and 2^63. *)
Definition float_as_int (f : Py.float) : Msg + Z :=
  if negb (Py.is_finite f) then inl finite_number
  else match Py.integral_value f with
       | None => inl int_from_float
       | Some z =>
           if (- 2 ^ 63 <? z) && (z <? 2 ^ 63) then inr z
           else inl int_parsing_size
       end.

Section Coercion.
Context {parsers : TextParsers}.

Definition validate_int (input : Py.value) : Msg + Z :=
  match input with
  | Py.VInt z => inr z
  | Py.VFloat f => float_as_int f
  | Py.VStr s =>
      match str_as_int s with
      | Some z => inr z
      | None =>
          inl (if int_text_too_long s then int_parsing_size
               else int_parsing)
      end
  end.

Definition validate_float (input : Py.value) : Msg + Py.float :=
  match input with
  | Py.VFloat f => inr f
  | Py.VStr s =>
      match str_as_float s with
      | Some f => inr f
      | None => inl float_parsing
      end
  | Py.VInt z =>
      match Py.float_of_int z with
      | Some f => inr f
      | None => inl float_type
      end
  end.

Definition validate_str (input : Py.value) : Msg + string :=
  match input with
  | Py.VStr s => inr s
  | _ => inl string_type
  end.
End Coercion.

(** The validator of [Annotated[T, Field(ge=.., le=..)]].  For [int] and
    [float] the bounds are part of the number schema, stored in the
    schema's own number type.  [str] has no such constraints: the bounds
    become comparison functions that run after the [str] validation. *)
Inductive CoreSchema :=
| int_schema (ge le : Z)
| float_schema (ge le : Py.float)
| str_after_schema (ge le : Py.number).

(** The bounds of a number schema are read into the schema's number type,
    in lax mode, when the validator is built: a float bound of an [int]
    schema must have no fractional part, an integer bound of a [float]
    schema must be within float range.  A bound that cannot be read makes
    the build fail. *)
Definition int_bound (constraint : string) (b : Py.number) : result Z :=
  match b with
  | Py.Int z => Ok z
  | Py.Float f =>
      match float_as_int f with
      | inr z => Ok z
      | inl _ => Raise (SchemaError constraint)
      end
  end.

Definition float_bound (constraint : string) (b : Py.number)
  : result Py.float :=
  match b with
  | Py.Float f => Ok f
  | Py.Int z =>
      match Py.float_of_int z with
      | Some f => Ok f
      | None => Raise (SchemaError constraint)
      end
  end.

Definition annotated (t : NativeType) (ge le : Py.number)
  : result CoreSchema :=
  match t with
  | py_int =>
      l <- int_bound "le" le ;;
      g <- int_bound "ge" ge ;;
      Ok (int_schema g l)
  | py_float =>
      l <- float_bound "le" le ;;
      g <- float_bound "ge" ge ;;
      Ok (float_schema g l)
  | py_str => Ok (str_after_schema ge le)
  end.

(** A model class with the single field [value]. *)
Record Model := {
  model_name : string;
  value_schema : CoreSchema
}.

Definition create_model (name : string) (schema : result CoreSchema)
  : result Model :=
  s <- schema ;;
  Ok {| model_name := name; value_schema := s |}.

Section Validate.
Context {parsers : TextParsers}.

(** Validation of [{"value": input}]: coercion first, then the upper
    bound, then the lower bound.  A float passes a bound only when the
    comparison [f <= le], [f >= ge] holds, which it never does when the
    value or the bound is a NaN.  On a [str] the first comparison,
    [s >= ge], is between text and a number and raises [TypeError]. *)
Definition validate_value (schema : CoreSchema) (input : Py.value)
  : Outcome :=
  match schema with
  | int_schema g l =>
      match validate_int input with
      | inl msg => Invalid msg
      | inr z =>
          if l <? z then Invalid (less_than_equal (Py.Int l))
          else if z <? g then Invalid (greater_than_equal (Py.Int g))
          else Valid (Py.VInt z)
      end
  | float_schema g l =>
      match validate_float input with
      | inl msg => Invalid msg
      | inr f =>
          if negb (Py.float_le f l)
          then Invalid (less_than_equal (Py.Float l))
          else if negb (Py.float_ge f g)
               then Invalid (greater_than_equal (Py.Float g))
          else Valid (Py.VFloat f)
      end
  | str_after_schema g l =>
      match validate_str input with
      | inl msg => Invalid msg
      | inr s => Crash (TypeError "ge" (Py.VStr s))
      end
  end.

Definition validate (model : Model) (input : Py.value) : Outcome :=
  validate_value (value_schema model) input.
End Validate.

End Pydantic.


(** ** [Field] *)

Record Field := {
  field_name : string;
  field_type : ArcType;
  field_unit : string;
  field_range : list Py.number
}.

(** [range[i]] *)
Definition index {A} (l : list A) (i : nat) : result A :=
  match nth_error l i with
  | Some a => Ok a
  | None => Raise IndexError
  end.

(** [Field.range_validator]; the [ValueError] it raises reaches the caller
    as a validation error with the message of the [ValueError]. *)
Definition range_validator (range : list Py.number)
  : result (list Py.number) :=
  low <- index range 0 ;;
  high <- index range 1 ;;
  if Py.ge low high
  then Raise (ValidationError [value_error range low high])
  else Ok range.

(** [Field(field_name=.., field_type=.., field_unit=.., field_range=..)]:
    the List.length constraints [min_length=2] and [max_length=2] of
    [field_range] are checked first, and [range_validator] runs on a list
    that passed them. *)
Definition Field_new (name : string) (type : ArcType) (unit : string)
  (range : list Py.number) : result Field :=
  let n := List.length range in
  if (n <? 2)%nat then Raise (ValidationError [too_short n])
  else if (2 <? n)%nat then Raise (ValidationError [too_long n])
  else
    r <- range_validator range ;;
    Ok {| field_name := name; field_type := type;
          field_unit := unit; field_range := r |}.

(** ** [ArcSchema] *)

Record ArcSchema := {
  fields : list Field
}.

(** A method of [ArcSchema]: it receives [self] and hands it back. *)
Definition Method (A : Type) : Type := ArcSchema -> A * ArcSchema.

Definition ret {A} (a : A) : Method A := fun self => (a, self).

Definition bind {A B} (m : Method A) (k : A -> Method B) : Method B :=
  fun self => let (a, self') := m self in k a self'.

Definition self_fields : Method (list Field) :=
  fun self => (fields self, self).

Notation "x <~ m ;; k" := (bind m (fun x => k))
  (at level 61, m at next level, right associativity).

(** The body of the loop of [parameter_models], for one field. *)
Definition parameter_model (field : Field) : result Pydantic.Model :=
  ge <- index (field_range field) 0 ;;
  le <- index (field_range field) 1 ;;
  Pydantic.create_model
    (String.append "parameter_" (field_name field))
    (Pydantic.annotated (native_type (field_type field)) ge le).

Fixpoint parameter_models_loop (fs : list Field)
  (parameter_models : list Pydantic.Model) : result (list Pydantic.Model) :=
  match fs with
  | [] => Ok parameter_models
  | field :: rest =>
      ParameterModel <- parameter_model field ;;
      parameter_models_loop rest (parameter_models ++ [ParameterModel])
  end.

(** [ArcSchema.parameter_models], a computed property: evaluated at every
    access. *)
Definition parameter_models : Method (result (list Pydantic.Model)) :=
  fs <~ self_fields ;;
  ret (parameter_models_loop fs []).

(** What a call of [validate_record] did: what it returned or raised, and
    the names of the models whose [validate] it called, in call order. *)
Record Run := {
  outcome : result (bool * list (Msg * string));
  checked : list string
}.

Definition raised (e : Exn) (log : list string) : Run :=
  {| outcome := Raise e; checked := log |}.

Section ValidateRecord.
Context {parsers : TextParsers}.

Fixpoint validate_loop (pairs : list (Py.value * Pydantic.Model))
  (errors : list (Msg * string)) (log : list string) : Run :=
  match pairs with
  | [] =>
      {| outcome := if (0 <? List.length errors)%nat
                    then Ok (false, errors)
                    else Ok (true, []);
         checked := log |}
  | (item, parameter_model) :: rest =>
      let name := Pydantic.model_name parameter_model in
      match Pydantic.validate parameter_model item with
      | Pydantic.Valid _ => validate_loop rest errors (log ++ [name])
      | Pydantic.Invalid msg =>
          validate_loop rest (errors ++ [(msg, name)]) (log ++ [name])
      | Pydantic.Crash e => raised e (log ++ [name])
      end
  end.

(** [ArcSchema.validate_record] *)
Definition validate_record (record : list Py.value) : Method Run :=
  models <~ parameter_models ;;
  match models with
  | Raise e => ret (raised e [])
  | Ok models =>
      if negb (List.length record =? List.length models)%nat
      then
        models' <~ parameter_models ;;
        match models' with
        | Raise e => ret (raised e [])
        | Ok models' => ret (raised (LengthMismatch (List.length models')) [])
        end
      else
        models' <~ parameter_models ;;
        match models' with
        | Raise e => ret (raised e [])
        | Ok models' => ret (validate_loop (combine record models') [] [])
        end
  end.

(** The result of [self.validate_record(record)]. *)
Definition call (self : ArcSchema) (record : list Py.value) : Run :=
  fst (validate_record record self).

End ValidateRecord.

(** ** The methods in the running program

    [pydantic.create_model] makes a new class at every call, and
    [parameter_models], a computed property, is evaluated at every access:
    each access leaves new class objects behind.  Here the state of the
    running program is explicit: the schema object, which a method could
    assign to, and the number of model classes created so far, which gives
    each new class its identity. *)

Module Runtime.

Record state := {
  self : ArcSchema;
  created : nat
}.

(** A model class as an object: what [create_model] built, and which
    object it is. *)
Record class_object := {
  identity : nat;
  class_model : Pydantic.Model
}.

Definition Action (A : Type) : Type := state -> A * state.

Definition ret {A} (a : A) : Action A := fun st => (a, st).

Definition bind {A B} (m : Action A) (k : A -> Action B) : Action B :=
  fun st => let (a, st') := m st in k a st'.

(** [self.fields] *)
Definition get_fields : Action (list Field) :=
  fun st => (fields (self st), st).

(** [pydantic.create_model(name, value=(ValueType, None))] *)
Definition create_model (name : string) (schema : result Pydantic.CoreSchema)
  : Action (result class_object) :=
  fun st =>
    match Pydantic.create_model name schema with
    | Ok m =>
        (Ok {| identity := created st; class_model := m |},
         {| self := self st; created := S (created st) |})
    | Raise e => (Raise e, st)
    end.

Definition parameter_model (field : Field) : Action (result class_object) :=
  match index (field_range field) 0 with
  | Raise e => ret (Raise e)
  | Ok ge =>
      match index (field_range field) 1 with
      | Raise e => ret (Raise e)
      | Ok le =>
          create_model
            (String.append "parameter_" (field_name field))
            (Pydantic.annotated (native_type (field_type field)) ge le)
      end
  end.

Fixpoint parameter_models_loop (fs : list Field)
  (parameter_models : list class_object)
  : Action (result (list class_object)) :=
  match fs with
  | [] => ret (Ok parameter_models)
  | field :: rest =>
      bind (parameter_model field) (fun ParameterModel =>
        match ParameterModel with
        | Raise e => ret (Raise e)
        | Ok ParameterModel =>
            parameter_models_loop rest
              (parameter_models ++ [ParameterModel])
        end)
  end.

Definition parameter_models : Action (result (list class_object)) :=
  bind get_fields (fun fs => parameter_models_loop fs []).

Section ValidateRecord.
Context {parsers : TextParsers}.

(** The loop reads each class object: its [validate] and its [__name__]. *)
Definition loop (record : list Py.value) (models : list class_object)
  : Run :=
  validate_loop (combine record (map class_model models)) [] [].

Definition validate_record (record : list Py.value) : Action Run :=
  bind parameter_models (fun models =>
    match models with
    | Raise e => ret (raised e [])
    | Ok models =>
        if negb (List.length record =? List.length models)%nat
        then
          bind parameter_models (fun models' =>
            match models' with
            | Raise e => ret (raised e [])
            | Ok models' =>
                ret (raised (LengthMismatch (List.length models')) [])
            end)
        else
          bind parameter_models (fun models' =>
            match models' with
            | Raise e => ret (raised e [])
            | Ok models' => ret (loop record models')
            end)
    end).

End ValidateRecord.

End Runtime.

(** ** A concrete parser, to run examples

    Plain decimal integers with an optional sign; a float is read from the
    same syntax. *)

Definition digit_value (c : Ascii.ascii) : option Z :=
  let n := Z.of_nat (Ascii.nat_of_ascii c) in
  if (48 <=? n) && (n <=? 57) then Some (n - 48) else None.

Fixpoint digits_value (s : string) (acc : Z) : option Z :=
  match s with
  | EmptyString => Some acc
  | String c rest =>
      match digit_value c with
      | Some d => digits_value rest (10 * acc + d)
      | None => None
      end
  end.

Definition decimal_int (s : string) : option Z :=
  match s with
  | EmptyString => None
  | String "-"%char (String c rest) =>
      option_map Z.opp (digits_value (String c rest) 0)
  | String "+"%char (String c rest) => digits_value (String c rest) 0
  | _ => digits_value s 0
  end.

Definition decimal_parsers : TextParsers := {|
  str_as_int := decimal_int;
  str_as_float := fun s =>
    match decimal_int s with
    | Some z => Py.float_of_int z
    | None => None
    end;
  int_text_too_long := fun s => (4300 <? String.length s)%nat
|}.

(** The float nearest to an integer literal such as [50.0]. *)
Definition float_literal (z : Z) : Py.float :=
  binary_normalize Py.prec Py.emax z 0 false.

(** The schema of the class docstring. *)
Definition STEP : Field :=
  {| field_name := "STEP"; field_type := INT; field_unit := "";
     field_range := [Py.Int 0; Py.Int 10] |}.

Definition HEIGHT : Field :=
  {| field_name := "HEIGHT"; field_type := DOUBLE; field_unit := "m";
     field_range := [Py.Int 0; Py.Int 100] |}.

Definition example_schema : ArcSchema := {| fields := [STEP; HEIGHT] |}.

(** [0.5] and [10.5] *)
Definition half : Py.float := binary_normalize Py.prec Py.emax 1 (-1) false.
Definition ten_and_half : Py.float :=
  binary_normalize Py.prec Py.emax 21 (-1) false.

(** An [INT] field whose bounds have a fractional part. *)
Definition FRACTION : Field :=
  {| field_name := "FRACTION"; field_type := INT; field_unit := "";
     field_range := [Py.Float half; Py.Float ten_and_half] |}.

(** A [STRING] field. *)
Definition NAME : Field :=
  {| field_name := "NAME"; field_type := STRING; field_unit := "";
     field_range := [Py.Int 0; Py.Int 10] |}.

Definition fraction_schema : ArcSchema := {| fields := [FRACTION] |}.
Definition name_schema : ArcSchema := {| fields := [NAME] |}.
Definition step_name_schema : ArcSchema := {| fields := [STEP; NAME] |}.

(** ** Vocabulary of the statements *)

(** The model name under which a field's errors are reported. *)
Definition reported_name (f : Field) : string :=
  String.append "parameter_" (field_name f).

(** All parameter models of the schema can be built. *)
Definition builds (self : ArcSchema) : bool :=
  match fst (parameter_models self) with
  | Ok _ => true
  | Raise _ => false
  end.

(** The bounds a model enforces, in the model's own number type. *)
Definition compiled_range (m : Pydantic.Model)
  : option (Py.number * Py.number) :=
  match Pydantic.value_schema m with
  | Pydantic.int_schema g l => Some (Py.Int g, Py.Int l)
  | Pydantic.float_schema g l => Some (Py.Float g, Py.Float l)
  | Pydantic.str_after_schema _ _ => None
  end.

(** A text value offered to a [STRING] field. *)
Definition text_in_string_field (f : Field) (item : Py.value) : bool :=
  match field_type f, item with
  | STRING, Py.VStr _ => true
  | _, _ => false
  end.

Fixpoint no_text_in_string (fs : list Field) (record : list Py.value)
  : bool :=
  match fs, record with
  | f :: fs', item :: record' =>
      negb (text_in_string_field f item) && no_text_in_string fs' record'
  | _, _ => true
  end.

(** [mapM parameter_model]: the models of a list of fields. *)
Fixpoint models_of (fs : list Field) : result (list Pydantic.Model) :=
  match fs with
  | [] => Ok []
  | f :: rest =>
      m <- parameter_model f ;;
      ms <- models_of rest ;;
      Ok (m :: ms)
  end.

(** The schema of a numeric field's model, with its coerced bounds. *)
Inductive numeric_schema (f : Field) (m : Pydantic.Model)
  (lo hi : Py.number) : Py.number -> Py.number -> Prop :=
| numeric_int (g l : Z) :
    native_type (field_type f) = py_int ->
    Pydantic.value_schema m = Pydantic.int_schema g l ->
    Pydantic.int_bound "ge" lo = Ok g ->
    Pydantic.int_bound "le" hi = Ok l ->
    numeric_schema f m lo hi (Py.Int g) (Py.Int l)
| numeric_float (g l : Py.float) :
    native_type (field_type f) = py_float ->
    Pydantic.value_schema m = Pydantic.float_schema g l ->
    Pydantic.float_bound "ge" lo = Ok g ->
    Pydantic.float_bound "le" hi = Ok l ->
    numeric_schema f m lo hi (Py.Float g) (Py.Float l).

Section Vocabulary.
Context {parsers : TextParsers}.

(** The value of an item in the field's native type, or the coercion
    error. *)
Definition coerce (t : NativeType) (item : Py.value) : Msg + Py.value :=
  match t with
  | py_int =>
      match Pydantic.validate_int item with
      | inr z => inr (Py.VInt z)
      | inl msg => inl msg
      end
  | py_float =>
      match Pydantic.validate_float item with
      | inr f => inr (Py.VFloat f)
      | inl msg => inl msg
      end
  | py_str =>
      match Pydantic.validate_str item with
      | inr s => inr (Py.VStr s)
      | inl msg => inl msg
      end
  end.

(** What the rule of field [f] says about [item]. *)
Definition rule_outcome (f : Field) (item : Py.value) : Pydantic.Outcome :=
  match parameter_model f with
  | Ok m => Pydantic.validate m item
  | Raise e => Pydantic.Crash e
  end.

(** The entry a position contributes to the error list: one if the rule
    rejects the item, none otherwise. *)
Definition entry (f : Field) (item : Py.value) : list (Msg * string) :=
  match rule_outcome f item with
  | Pydantic.Invalid msg => [(msg, reported_name f)]
  | _ => []
  end.

Fixpoint expected_errors (fs : list Field) (record : list Py.value)
  : list (Msg * string) :=
  match fs, record with
  | f :: fs', item :: record' => entry f item ++ expected_errors fs' record'
  | _, _ => []
  end.

End Vocabulary.

(** The same field with another unit. *)
Definition with_unit (unit : Field -> string) (f : Field) : Field :=
  {| field_name := field_name f; field_type := field_type f;
     field_unit := unit f; field_range := field_range f |}.

(** The same field with [DOUBLE] and [FLOAT] exchanged. *)
Definition swap_double_float (f : Field) : Field :=
  {| field_name := field_name f;
     field_type := match field_type f with
                   | DOUBLE => FLOAT
                   | FLOAT => DOUBLE
                   | t => t
                   end;
     field_unit := field_unit f; field_range := field_range f |}.

(** [len(errors) == 0] *)
Definition is_empty {A} (l : list A) : bool :=
  match l with
  | [] => true
  | _ :: _ => false
  end.

Section Acceptance.
Context {parsers : TextParsers}.

(** The rule of field [f] accepts [item]. *)
Definition accepted (f : Field) (item : Py.value) : bool :=
  match rule_outcome f item with
  | Pydantic.Valid _ => true
  | _ => false
  end.

Fixpoint all_accepted (fs : list Field) (record : list Py.value) : bool :=
  match fs, record with
  | f :: fs', item :: record' => accepted f item && all_accepted fs' record'
  | _, _ => true
  end.

(** The single entry of a rejected value. *)
Definition rejected_with (f : Field) (msg : Msg) : Run :=
  {| outcome := Ok (false, [(msg, reported_name f)]);
     checked := [reported_name f] |}.

End Acceptance.

(** The class objects of the running program stand for these models. *)
Definition same_models (objects : result (list Runtime.class_object))
  (models : result (list Pydantic.Model)) : Prop :=
  match objects, models with
  | Ok os, Ok ms => map Runtime.class_model os = ms
  | Raise e, Raise e' => e = e'
  | _, _ => False
  end.

(** ** The order on Python numbers *)

Lemma fin_compare_refl (m e : Z) : Py.fin_compare m e m e = Eq.
Proof. unfold Py.fin_compare. apply Z.compare_refl. Qed.

Lemma fin_compare_antisym (m1 e1 m2 e2 : Z) :
  Py.fin_compare m2 e2 m1 e1 = CompOpp (Py.fin_compare m1 e1 m2 e2).
Proof.
  unfold Py.fin_compare. rewrite (Z.min_comm e2 e1). apply Z.compare_antisym.
Qed.

Lemma xcompare_antisym (x y : Py.xreal) :
  Py.xcompare y x = option_map CompOpp (Py.xcompare x y).
Proof.
  destruct x as [|[]|m1 e1], y as [|[]|m2 e2]; simpl; try reflexivity.
  now rewrite fin_compare_antisym.
Qed.

Lemma compare_antisym (a b : Py.number) :
  Py.compare b a = option_map CompOpp (Py.compare a b).
Proof. apply xcompare_antisym. Qed.

Lemma xcompare_refl (x : Py.xreal) :
  Py.xcompare x x = Some Eq \/ Py.xcompare x x = None.
Proof.
  destruct x as [|[]|m e]; simpl; auto. now rewrite fin_compare_refl; left.
Qed.

Lemma lt_irrefl (a : Py.number) : Py.lt a a = false.
Proof.
  unfold Py.lt, Py.compare.
  now destruct (xcompare_refl (Py.xreal_of_number a)) as [-> | ->].
Qed.

Lemma gt_irrefl (a : Py.number) : Py.gt a a = false.
Proof.
  unfold Py.gt, Py.compare.
  now destruct (xcompare_refl (Py.xreal_of_number a)) as [-> | ->].
Qed.

Lemma lt_not_ge (a b : Py.number) : Py.lt a b = true -> Py.ge a b = false.
Proof. unfold Py.lt, Py.ge. now destruct (Py.compare a b) as [[]|]. Qed.

Lemma le_not_gt (a b : Py.number) : Py.le a b = true -> Py.gt a b = false.
Proof. unfold Py.le, Py.gt. now destruct (Py.compare a b) as [[]|]. Qed.

Lemma le_not_lt_flip (a b : Py.number) :
  Py.le a b = true -> Py.lt b a = false.
Proof.
  unfold Py.le, Py.lt. rewrite (compare_antisym a b).
  now destruct (Py.compare a b) as [[]|].
Qed.

Lemma int_compare (x y : Z) : Py.compare (Py.Int x) (Py.Int y) = Some (x ?= y).
Proof.
  unfold Py.compare, Py.fin_compare; simpl. unfold Py.fin_compare.
  now rewrite Z.min_id, Z.sub_diag, !Z.mul_1_r.
Qed.

Lemma int_lt (x y : Z) : Py.lt (Py.Int x) (Py.Int y) = (x <? y).
Proof. unfold Py.lt, Z.ltb. rewrite int_compare. now destruct (x ?= y). Qed.

Lemma int_gt (x y : Z) : Py.gt (Py.Int x) (Py.Int y) = (y <? x).
Proof.
  unfold Py.gt, Z.ltb. rewrite int_compare, (Z.compare_antisym x y).
  now destruct (x ?= y).
Qed.

Lemma int_le (x y : Z) : Py.le (Py.Int x) (Py.Int y) = (x <=? y).
Proof. unfold Py.le, Z.leb. rewrite int_compare. now destruct (x ?= y). Qed.

Lemma le_refl_of_le (a b : Py.number) :
  Py.le a b = true -> Py.le a a = true /\ Py.le b b = true.
Proof.
  unfold Py.le, Py.compare.
  destruct (Py.xreal_of_number a) as [|[]|m1 e1],
           (Py.xreal_of_number b) as [|[]|m2 e2];
    simpl; rewrite ?fin_compare_refl; intros H; auto; discriminate.
Qed.

Lemma int_ge (x y : Z) : Py.ge (Py.Int x) (Py.Int y) = (y <=? x).
Proof.
  unfold Py.ge, Z.leb. rewrite int_compare, (Z.compare_antisym x y).
  now destruct (x ?= y).
Qed.

Lemma le_ge_flip (a b : Py.number) : Py.le a b = true -> Py.ge b a = true.
Proof.
  unfold Py.le, Py.ge. rewrite (compare_antisym a b).
  now destruct (Py.compare a b) as [[]|].
Qed.

Lemma gt_not_le (a b : Py.number) : Py.gt a b = true -> Py.le a b = false.
Proof. unfold Py.gt, Py.le. now destruct (Py.compare a b) as [[]|]. Qed.

(** ** The loops of [ArcSchema] *)

Lemma parameter_models_loop_models_of (fs : list Field) :
  forall acc,
    parameter_models_loop fs acc = (ms <- models_of fs ;; Ok (acc ++ ms)).
Proof.
  induction fs as [|f fs IH]; intros acc; simpl.
  - now rewrite app_nil_r.
  - destruct (parameter_model f) as [m|e]; simpl; [|reflexivity].
    rewrite IH. destruct (models_of fs) as [ms|e]; simpl; [|reflexivity].
    now rewrite <- app_assoc.
Qed.

Lemma parameter_models_run (self : ArcSchema) :
  parameter_models self = (models_of (fields self), self).
Proof.
  unfold parameter_models, bind, self_fields, ret.
  rewrite parameter_models_loop_models_of.
  now destruct (models_of (fields self)).
Qed.

Lemma builds_models_of (self : ArcSchema) :
  builds self = true -> exists ms, models_of (fields self) = Ok ms.
Proof.
  unfold builds. rewrite parameter_models_run; simpl.
  destruct (models_of (fields self)) as [ms|e]; [eauto | discriminate].
Qed.

Lemma parameter_model_inv (f : Field) (m : Pydantic.Model) :
  parameter_model f = Ok m ->
  exists ge le s,
    field_range f = ge :: le :: skipn 2 (field_range f) /\
    Pydantic.annotated (native_type (field_type f)) ge le = Ok s /\
    m = {| Pydantic.model_name := reported_name f;
           Pydantic.value_schema := s |}.
Proof.
  unfold parameter_model, index, Pydantic.create_model, reported_name.
  destruct (field_range f) as [|ge [|le rest]]; simpl; try discriminate.
  destruct (Pydantic.annotated _ ge le) as [s|e] eqn:Hs; simpl;
    [|discriminate].
  intros [= <-]. exists ge, le, s. split; [reflexivity|]. split; [exact Hs | reflexivity].
Qed.

Lemma models_of_Forall2 (fs : list Field) :
  forall ms,
    models_of fs = Ok ms ->
    Forall2 (fun f m => parameter_model f = Ok m) fs ms.
Proof.
  induction fs as [|f fs IH]; simpl; intros ms H.
  - injection H as <-. constructor.
  - destruct (parameter_model f) as [m|e] eqn:Hm; simpl in H; [|discriminate].
    destruct (models_of fs) as [ms'|e]; simpl in H; [|discriminate].
    injection H as <-. constructor; auto.
Qed.

Lemma models_of_length (fs : list Field) (ms : list Pydantic.Model) :
  models_of fs = Ok ms -> List.length ms = List.length fs.
Proof.
  intros H. symmetry. eapply Forall2_length, models_of_Forall2, H.
Qed.

Section Loops.
Context {parsers : TextParsers}.

Lemma validate_record_run (record : list Py.value) (self : ArcSchema) :
  validate_record record self =
    (match models_of (fields self) with
     | Raise e => raised e []
     | Ok ms =>
         if negb (List.length record =? List.length ms)%nat
         then raised (LengthMismatch (List.length ms)) []
         else validate_loop (combine record ms) [] []
     end, self).
Proof.
  unfold validate_record, bind. rewrite parameter_models_run.
  destruct (models_of (fields self)) as [ms|e] eqn:Hms; [|reflexivity].
  destruct (negb _); rewrite parameter_models_run, Hms; reflexivity.
Qed.

(** A model crashes only on text offered to a [STRING] field. *)
Lemma validate_total (f : Field) (m : Pydantic.Model) (item : Py.value) :
  parameter_model f = Ok m ->
  text_in_string_field f item = false ->
  forall e, Pydantic.validate m item <> Pydantic.Crash e.
Proof.
  intros Hm Htxt e. apply parameter_model_inv in Hm as (g & l & s & _ & Hs & ->).
  unfold Pydantic.validate, text_in_string_field in *; simpl.
  destruct (field_type f); simpl in Hs.
  1-3: (destruct (_ "le"%string l); simpl in Hs; [|discriminate];
        destruct (_ "ge"%string g); simpl in Hs; [|discriminate];
        injection Hs as <-; simpl;
        match goal with |- context [match ?c with inl _ => _ | inr _ => _ end] =>
          destruct c end;
        repeat match goal with |- context [if ?c then _ else _] =>
          destruct c end; discriminate).
  injection Hs as <-; simpl. destruct item; simpl; discriminate.
Qed.

Lemma validate_loop_spec (fs : list Field) :
  forall ms record errors log,
    Forall2 (fun f m => parameter_model f = Ok m) fs ms ->
    List.length record = List.length fs ->
    no_text_in_string fs record = true ->
    validate_loop (combine record ms) errors log =
      {| outcome :=
           (let es := errors ++ expected_errors fs record in
            if (0 <? List.length es)%nat then Ok (false, es)
            else Ok (true, []));
         checked := log ++ map reported_name fs |}.
Proof.
  induction fs as [|f fs IH]; intros ms record errors log HF Hlen Hno.
  - inversion HF; subst. destruct record; [|discriminate].
    simpl. now rewrite !app_nil_r.
  - inversion HF as [|? m ? ms' Hm HF']; subst.
    destruct record as [|item record]; [discriminate|].
    simpl in Hlen, Hno. injection Hlen as Hlen.
    apply andb_prop in Hno as [Htxt Hno]. apply negb_true_iff in Htxt.
    pose proof (validate_total f m item Hm Htxt) as Htot.
    assert (Hname : Pydantic.model_name m = reported_name f).
    { apply parameter_model_inv in Hm as (? & ? & ? & _ & _ & ->).
      reflexivity. }
    simpl. unfold entry, rule_outcome. rewrite Hm, Hname.
    destruct (Pydantic.validate m item) as [v|msg|e].
    + rewrite (IH ms' record errors _ HF' Hlen Hno). simpl.
      now rewrite <- app_assoc.
    + rewrite (IH ms' record _ _ HF' Hlen Hno). simpl.
      now rewrite <- !app_assoc.
    + now contradiction (Htot e).
Qed.

End Loops.

(** ** [Field] construction *)

(** C5: constructing a [Field] from a range [low, high] succeeds whenever
    [low < high] and fails whenever [low >= high], with a message that
    carries the range and both bounds; no constructed [Field] has
    [low >= high]. *)
Theorem Field_new_range (name : string) (type : ArcType) (unit : string)
  (low high : Py.number) :
  (Py.lt low high = true ->
   Field_new name type unit [low; high] =
     Ok {| field_name := name; field_type := type; field_unit := unit;
           field_range := [low; high] |}) /\
  (Py.ge low high = true ->
   Field_new name type unit [low; high] =
     Raise (ValidationError [value_error [low; high] low high])) /\
  (forall range f,
     Field_new name type unit range = Ok f ->
     exists lo hi, field_range f = [lo; hi] /\ Py.ge lo hi = false).
Proof.
  split; [|split].
  - intros Hlt. unfold Field_new, range_validator; simpl.
    now rewrite (lt_not_ge _ _ Hlt).
  - intros Hge. unfold Field_new, range_validator; simpl. now rewrite Hge.
  - intros range f. unfold Field_new, range_validator.
    destruct range as [|lo [|hi [|x rest]]]; simpl; try discriminate.
    destruct (Py.ge lo hi) eqn:Hge; simpl; [discriminate|].
    intros [= <-]. now exists lo, hi.
Qed.

Lemma Field_new_range_witness :
  Field_new "STEP" INT "" [Py.Int 0; Py.Int 10] = Ok STEP /\
  Field_new "STEP" INT "" [Py.Int 10; Py.Int 5] =
    Raise (ValidationError
             [value_error [Py.Int 10; Py.Int 5] (Py.Int 10) (Py.Int 5)]) /\
  (exists lo hi, field_range STEP = [lo; hi] /\ Py.ge lo hi = false).
Proof.
  destruct (Field_new_range "STEP" INT "" (Py.Int 0) (Py.Int 10))
    as (Hok & _ & Hinv).
  destruct (Field_new_range "STEP" INT "" (Py.Int 10) (Py.Int 5))
    as (_ & Hfail & _).
  split; [apply Hok; reflexivity|].
  split; [apply Hfail; reflexivity|].
  apply (Hinv [Py.Int 0; Py.Int 10] STEP). reflexivity.
Defined.

(** C9: a [field_range] whose length is not two is refused by the length
    constraint, whatever its elements; [range_validator] and its
    [low >= high] test are not reached. *)
Theorem Field_new_length (name : string) (type : ArcType) (unit : string)
  (range : list Py.number) :
  List.length range <> 2%nat ->
  Field_new name type unit range =
    Raise (ValidationError
             [if (List.length range <? 2)%nat
              then too_short (List.length range)
              else too_long (List.length range)]).
Proof.
  intros Hlen. unfold Field_new.
  destruct (List.length range <? 2)%nat eqn:Hshort; [reflexivity|].
  destruct (2 <? List.length range)%nat eqn:Hlong; [reflexivity|].
  apply Nat.ltb_ge in Hshort, Hlong. lia.
Qed.

Lemma Field_new_length_witness :
  Field_new "STEP" INT "" [Py.Int 5; Py.Int 3; Py.Int 1] =
    Raise (ValidationError [too_long 3]).
Proof.
  apply (Field_new_length "STEP" INT "" [Py.Int 5; Py.Int 3; Py.Int 1]).
  simpl. lia.
Defined.

(** ** [validate_record] *)

Section RecordValidation.
Context {parsers : TextParsers}.

Lemma call_run (self : ArcSchema) (record : list Py.value) :
  call self record =
    match models_of (fields self) with
    | Raise e => raised e []
    | Ok ms =>
        if negb (List.length record =? List.length ms)%nat
        then raised (LengthMismatch (List.length ms)) []
        else validate_loop (combine record ms) [] []
    end.
Proof. unfold call. now rewrite validate_record_run. Qed.

(** C2, amended: when the parameter models of the schema can be built and
    the record's length differs from the number of fields,
    [validate_record] raises the length-mismatch exception carrying the
    number of fields, and no model's [validate] is called. *)
Theorem length_mismatch (self : ArcSchema) (record : list Py.value) :
  builds self = true ->
  List.length record <> List.length (fields self) ->
  call self record =
    {| outcome := Raise (LengthMismatch (List.length (fields self)));
       checked := [] |}.
Proof.
  intros Hb Hlen. rewrite call_run.
  destruct (builds_models_of self Hb) as [ms Hms]. rewrite Hms.
  rewrite (models_of_length _ _ Hms).
  apply Nat.eqb_neq in Hlen. now rewrite Hlen.
Qed.

(** C3, amended: when the parameter models can be built, the record has as
    many values as the schema has fields and no [STRING] field is offered a
    text value, [validate_record] returns [(is_valid, errors)] where
    [is_valid] holds exactly when [errors] is empty and [errors] has, in
    field order, one entry for each position whose rule rejects its value
    and none for the others; every model is consulted, in field order. *)
Theorem errors_are_the_failing_positions (self : ArcSchema)
  (record : list Py.value) :
  builds self = true ->
  List.length record = List.length (fields self) ->
  no_text_in_string (fields self) record = true ->
  exists is_valid errors,
    outcome (call self record) = Ok (is_valid, errors) /\
    (is_valid = true <-> errors = []) /\
    errors = expected_errors (fields self) record /\
    checked (call self record) = map reported_name (fields self).
Proof.
  intros Hb Hlen Hno. rewrite call_run.
  destruct (builds_models_of self Hb) as [ms Hms]. rewrite Hms.
  rewrite (models_of_length _ _ Hms), Hlen, Nat.eqb_refl; simpl.
  rewrite (validate_loop_spec (fields self) ms record [] []
             (models_of_Forall2 _ _ Hms) Hlen Hno); simpl.
  destruct (expected_errors (fields self) record) as [|e es]; simpl.
  - exists true, []. intuition.
  - exists false, (e :: es). intuition discriminate.
Qed.

(** C4: a [STRING] field with any two bounds, offered any text, makes
    [validate_record] raise [TypeError]: the [ge] bound is compared with
    the text. *)
Theorem text_in_string_field_raises (name unit text : string)
  (low high : Py.number) :
  call {| fields := [{| field_name := name; field_type := STRING;
                        field_unit := unit;
                        field_range := [low; high] |}] |}
       [Py.VStr text] =
    {| outcome := Raise (TypeError "ge" (Py.VStr text));
       checked := [String.append "parameter_" name] |}.
Proof. reflexivity. Qed.

End RecordValidation.

Lemma length_mismatch_witness :
  @call decimal_parsers example_schema [Py.VInt 5] =
    {| outcome := Raise (LengthMismatch 2); checked := [] |}.
Proof.
  apply (@length_mismatch decimal_parsers example_schema [Py.VInt 5]).
  - reflexivity.
  - simpl. lia.
Defined.

Lemma errors_are_the_failing_positions_witness :
  exists is_valid errors,
    outcome (@call decimal_parsers example_schema
               [Py.VInt 15; Py.VFloat (float_literal 200)]) =
      Ok (is_valid, errors) /\
    (is_valid = true <-> errors = []) /\
    errors = @expected_errors decimal_parsers (fields example_schema)
               [Py.VInt 15; Py.VFloat (float_literal 200)] /\
    checked (@call decimal_parsers example_schema
               [Py.VInt 15; Py.VFloat (float_literal 200)]) =
      map reported_name (fields example_schema).
Proof.
  apply (@errors_are_the_failing_positions decimal_parsers example_schema
           [Py.VInt 15; Py.VFloat (float_literal 200)]); reflexivity.
Defined.

(** A schema whose models cannot be built raises before the lengths are
    compared. *)
Lemma length_mismatch_counterexample :
  Field_new "FRACTION" INT "" [Py.Float half; Py.Float ten_and_half] =
    Ok FRACTION /\
  List.length (@nil Py.value) <> List.length (fields fraction_schema) /\
  outcome (@call decimal_parsers fraction_schema []) =
    Raise (SchemaError "le").
Proof.
  split; [reflexivity|]. split; [discriminate | reflexivity].
Qed.

(** Records of matching length for which no pair is returned: the models
    of the schema cannot be built, or a [STRING] field is offered text. *)
Lemma errors_are_the_failing_positions_counterexample :
  (List.length [Py.VInt 1] = List.length (fields fraction_schema) /\
   outcome (@call decimal_parsers fraction_schema [Py.VInt 1]) =
     Raise (SchemaError "le")) /\
  (Field_new "NAME" STRING "" [Py.Int 0; Py.Int 10] = Ok NAME /\
   List.length [Py.VStr "abc"] = List.length (fields name_schema) /\
   outcome (@call decimal_parsers name_schema [Py.VStr "abc"]) =
     Raise (TypeError "ge" (Py.VStr "abc"))).
Proof. repeat split. Qed.

(** ** Error entries *)

Lemma models_of_In (fs : list Field) :
  forall ms f,
    models_of fs = Ok ms -> In f fs -> exists m, parameter_model f = Ok m.
Proof.
  induction fs as [|f0 fs IH]; simpl; intros ms f H Hin; [contradiction|].
  destruct (parameter_model f0) as [m0|e] eqn:Hm0; simpl in H; [|discriminate].
  destruct (models_of fs) as [ms'|e]; simpl in H; [|discriminate].
  destruct Hin as [<- | Hin]; eauto.
Qed.

Section Entries.
Context {parsers : TextParsers}.

Lemma expected_errors_app (fs1 fs2 : list Field) :
  forall r1 r2,
    List.length r1 = List.length fs1 ->
    expected_errors (fs1 ++ fs2) (r1 ++ r2) =
      expected_errors fs1 r1 ++ expected_errors fs2 r2.
Proof.
  induction fs1 as [|f fs1 IH]; intros [|item r1] r2 Hlen;
    try discriminate; simpl; [reflexivity|].
  injection Hlen as Hlen. now rewrite IH, app_assoc.
Qed.

Lemma coercion_failure_invalid (f : Field) (m : Pydantic.Model)
  (item : Py.value) (msg : Msg) :
  parameter_model f = Ok m ->
  coerce (native_type (field_type f)) item = inl msg ->
  Pydantic.validate m item = Pydantic.Invalid msg.
Proof.
  intros Hm Hc. apply parameter_model_inv in Hm as (g & l & s & _ & Hs & ->).
  unfold Pydantic.validate; simpl. unfold coerce in Hc.
  destruct (native_type (field_type f)); simpl in Hs.
  - destruct (Pydantic.int_bound "le" l); simpl in Hs; [|discriminate].
    destruct (Pydantic.int_bound "ge" g); simpl in Hs; [|discriminate].
    injection Hs as <-; simpl.
    destruct (Pydantic.validate_int item); congruence.
  - destruct (Pydantic.float_bound "le" l); simpl in Hs; [|discriminate].
    destruct (Pydantic.float_bound "ge" g); simpl in Hs; [|discriminate].
    injection Hs as <-; simpl.
    destruct (Pydantic.validate_float item); congruence.
  - injection Hs as <-; simpl.
    destruct (Pydantic.validate_str item); congruence.
Qed.

(** C7, amended: when the parameter models can be built and no [STRING]
    field is offered a text value, a value that cannot be coerced to its
    field's native type does not make [validate_record] raise: the call
    returns [false] with the coercion message as that position's single
    entry, between the entries of the positions before and after it, and
    every model is consulted. *)
Theorem coercion_failure_is_an_entry (self : ArcSchema)
  (fs1 fs2 : list Field) (f : Field) (r1 r2 : list Py.value)
  (item : Py.value) (msg : Msg) :
  builds self = true ->
  fields self = fs1 ++ f :: fs2 ->
  List.length r1 = List.length fs1 ->
  List.length r2 = List.length fs2 ->
  no_text_in_string (fields self) (r1 ++ item :: r2) = true ->
  coerce (native_type (field_type f)) item = inl msg ->
  call self (r1 ++ item :: r2) =
    {| outcome :=
         Ok (false,
             expected_errors fs1 r1 ++ [(msg, reported_name f)]
               ++ expected_errors fs2 r2);
       checked := map reported_name (fields self) |}.
Proof.
  intros Hb Hfs Hl1 Hl2 Hno Hc. rewrite call_run.
  destruct (builds_models_of self Hb) as [ms Hms]. rewrite Hms.
  assert (Hlen : List.length (r1 ++ item :: r2) = List.length (fields self)).
  { rewrite Hfs, !length_app; simpl. lia. }
  rewrite (models_of_length _ _ Hms), Hlen, Nat.eqb_refl; simpl.
  rewrite (validate_loop_spec (fields self) ms _ [] []
             (models_of_Forall2 _ _ Hms) Hlen Hno); simpl.
  destruct (models_of_In _ ms f Hms) as [m Hm].
  { rewrite Hfs. apply in_elt. }
  rewrite Hfs, (expected_errors_app fs1 (f :: fs2) r1 (item :: r2) Hl1).
  assert (He : entry f item = [(msg, reported_name f)]).
  { unfold entry, rule_outcome.
    now rewrite Hm, (coercion_failure_invalid f m item msg Hm Hc). }
  simpl. rewrite He, length_app; simpl.
  replace (0 <? _)%nat with true; [reflexivity|].
  symmetry. apply Nat.ltb_lt. lia.
Qed.

End Entries.

(** The identifier of the entry is the model name, not the field name. *)
Lemma entries_name_the_model_counterexample :
  outcome (@call decimal_parsers example_schema
             [Py.VInt 15; Py.VFloat (float_literal 50)]) =
    Ok (false, [(less_than_equal (Py.Int 10), "parameter_STEP"%string)]) /\
  outcome (@call decimal_parsers example_schema
             [Py.VInt 15; Py.VFloat (float_literal 50)]) <>
    Ok (false, [(less_than_equal (Py.Int 10), "STEP"%string)]).
Proof. split; [reflexivity | discriminate]. Qed.

Lemma coercion_failure_is_an_entry_witness :
  @call decimal_parsers example_schema
    ([] ++ Py.VStr "x" :: [Py.VFloat (float_literal 50)]) =
    {| outcome :=
         Ok (false,
             @expected_errors decimal_parsers [] []
               ++ [(int_parsing, reported_name STEP)]
               ++ @expected_errors decimal_parsers [HEIGHT]
                    [Py.VFloat (float_literal 50)]);
       checked := map reported_name (fields example_schema) |}.
Proof.
  apply (@coercion_failure_is_an_entry decimal_parsers example_schema
           [] [HEIGHT] STEP [] [Py.VFloat (float_literal 50)]
           (Py.VStr "x") int_parsing); reflexivity.
Defined.

(** A value that cannot be coerced, in a schema whose models cannot be
    built; and a coercion failure at the first position followed by text
    for a [STRING] field.  Both calls raise and the caller gets no error
    list. *)
Lemma coercion_failure_is_an_entry_counterexample :
  (@coerce decimal_parsers (native_type (field_type FRACTION)) (Py.VStr "x") =
     inl int_parsing /\
   outcome (@call decimal_parsers fraction_schema [Py.VStr "x"]) =
     Raise (SchemaError "le")) /\
  (Field_new "NAME" STRING "" [Py.Int 0; Py.Int 10] = Ok NAME /\
   @coerce decimal_parsers (native_type (field_type STEP)) (Py.VStr "x") =
     inl int_parsing /\
   outcome (@call decimal_parsers step_name_schema
              [Py.VStr "x"; Py.VStr "abc"]) =
     Raise (TypeError "ge" (Py.VStr "abc"))).
Proof. repeat split. Qed.

(** ** Bounds *)

Section Bounds.
Context {parsers : TextParsers}.

Lemma call_single (f : Field) (m : Pydantic.Model) (item : Py.value) :
  parameter_model f = Ok m ->
  call {| fields := [f] |} [item] =
    match Pydantic.validate m item with
    | Pydantic.Valid _ =>
        {| outcome := Ok (true, []); checked := [reported_name f] |}
    | Pydantic.Invalid msg =>
        {| outcome := Ok (false, [(msg, reported_name f)]);
           checked := [reported_name f] |}
    | Pydantic.Crash e => raised e [reported_name f]
    end.
Proof.
  intros Hm. rewrite call_run; simpl. rewrite Hm; simpl.
  apply parameter_model_inv in Hm as (? & ? & ? & _ & _ & ->).
  unfold Pydantic.validate; simpl.
  now destruct (Pydantic.validate_value _ item).
Qed.

Lemma numeric_schema_intro (f : Field) (m : Pydantic.Model)
  (lo hi low high : Py.number) :
  field_range f = [lo; hi] ->
  parameter_model f = Ok m ->
  compiled_range m = Some (low, high) ->
  numeric_schema f m lo hi low high.
Proof.
  intros Hr Hm Hc.
  apply parameter_model_inv in Hm as (g & l & s & Hr' & Hs & ->).
  rewrite Hr in Hr'. simpl in Hr'. injection Hr' as <- <-.
  unfold compiled_range in Hc; simpl in Hc.
  destruct (native_type (field_type f)) eqn:Ht; simpl in Hs.
  - destruct (Pydantic.int_bound "le" hi) as [l|] eqn:Hl; simpl in Hs;
      [|discriminate].
    destruct (Pydantic.int_bound "ge" lo) as [g|] eqn:Hg; simpl in Hs;
      [|discriminate].
    injection Hs as <-. injection Hc as <- <-. now constructor.
  - destruct (Pydantic.float_bound "le" hi) as [l|] eqn:Hl; simpl in Hs;
      [|discriminate].
    destruct (Pydantic.float_bound "ge" lo) as [g|] eqn:Hg; simpl in Hs;
      [|discriminate].
    injection Hs as <-. injection Hc as <- <-. now constructor.
  - injection Hs as <-. discriminate.
Qed.

End Bounds.

Section InclusiveBounds.
Context {parsers : TextParsers}.

Lemma int_bound_coerce (c : string) (b : Py.number) (z : Z) :
  Pydantic.int_bound c b = Ok z ->
  coerce py_int (Py.value_of_number b) = inr (Py.VInt z).
Proof.
  destruct b as [x|fl]; simpl.
  - now intros [= <-].
  - destruct (Pydantic.float_as_int fl); [discriminate | now intros [= <-]].
Qed.

Lemma float_bound_coerce (c : string) (b : Py.number) (x : Py.float) :
  Pydantic.float_bound c b = Ok x ->
  coerce py_float (Py.value_of_number b) = inr (Py.VFloat x).
Proof.
  destruct b as [z|fl]; simpl.
  - destruct (Py.float_of_int z); [now intros [= <-] | discriminate].
  - now intros [= <-].
Qed.

Lemma coerce_int_inv (item : Py.value) (v : Py.value) :
  coerce py_int item = inr v ->
  exists z, v = Py.VInt z /\ Pydantic.validate_int item = inr z.
Proof.
  unfold coerce. destruct (Pydantic.validate_int item) as [|z];
    [discriminate|]. intros [= <-]. now exists z.
Qed.

Lemma coerce_float_inv (item : Py.value) (v : Py.value) :
  coerce py_float item = inr v ->
  exists x, v = Py.VFloat x /\ Pydantic.validate_float item = inr x.
Proof.
  unfold coerce. destruct (Pydantic.validate_float item) as [|x];
    [discriminate|]. intros [= <-]. now exists x.
Qed.

(** Within the compiled bounds: accepted. *)
Lemma within_bounds_accepted (f : Field) (m : Pydantic.Model)
  (lo hi low high c : Py.number) (item : Py.value) :
  numeric_schema f m lo hi low high ->
  parameter_model f = Ok m ->
  coerce (native_type (field_type f)) item = inr (Py.value_of_number c) ->
  Py.le low c = true ->
  Py.le c high = true ->
  call {| fields := [f] |} [item] =
    {| outcome := Ok (true, []); checked := [reported_name f] |}.
Proof.
  intros Hn Hm Hc Hlow Hhigh. rewrite (call_single f m item Hm).
  unfold Pydantic.validate.
  destruct Hn as [g l Ht Hs _ _ | g l Ht Hs _ _]; rewrite Ht in Hc; rewrite Hs;
    simpl.
  - apply coerce_int_inv in Hc as (z & Hz & ->).
    destruct c as [z'|]; [|discriminate]. injection Hz as ->.
    rewrite int_le in Hlow, Hhigh.
    apply Z.leb_le in Hlow, Hhigh.
    destruct (Z.ltb_spec l z); [lia|]. destruct (Z.ltb_spec z g); [lia|].
    reflexivity.
  - apply coerce_float_inv in Hc as (x & Hx & ->).
    destruct c as [|x']; [discriminate|]. injection Hx as ->.
    unfold Py.float_le, Py.float_ge.
    now rewrite Hhigh, (le_ge_flip _ _ Hlow).
Qed.

(** Strictly outside the compiled bounds: one entry. *)
Lemma outside_bounds_rejected (f : Field) (m : Pydantic.Model)
  (lo hi low high c : Py.number) (item : Py.value) :
  numeric_schema f m lo hi low high ->
  parameter_model f = Ok m ->
  coerce (native_type (field_type f)) item = inr (Py.value_of_number c) ->
  Py.lt c low = true \/ Py.gt c high = true ->
  exists msg,
    call {| fields := [f] |} [item] =
      {| outcome := Ok (false, [(msg, reported_name f)]);
         checked := [reported_name f] |}.
Proof.
  intros Hn Hm Hc Hout. rewrite (call_single f m item Hm).
  unfold Pydantic.validate.
  destruct Hn as [g l Ht Hs _ _ | g l Ht Hs _ _]; rewrite Ht in Hc; rewrite Hs;
    simpl.
  - apply coerce_int_inv in Hc as (z & Hz & ->).
    destruct c as [z'|]; [|discriminate]. injection Hz as ->.
    rewrite int_lt, int_gt in Hout.
    destruct (l <? z); [eauto|]. destruct (z <? g); [eauto|].
    now destruct Hout.
  - apply coerce_float_inv in Hc as (x & Hx & ->).
    destruct c as [|x']; [discriminate|]. injection Hx as ->.
    unfold Py.float_le, Py.float_ge.
    destruct (Py.le (Py.Float x) (Py.Float l)) eqn:Hle; simpl; [|eauto].
    destruct (Py.ge (Py.Float x) (Py.Float g)) eqn:Hge; simpl; [|eauto].
    destruct Hout as [Hlt | Hgt].
    + now rewrite (lt_not_ge _ _ Hlt) in Hge.
    + now rewrite (gt_not_le _ _ Hgt) in Hle.
Qed.

End InclusiveBounds.

Section NumericFields.
Context {parsers : TextParsers}.

(** C1, amended: for a numeric field whose declared bounds coerce to the
    field's native type as [(low, high)] with [low <= high], a value equal
    to a declared bound coerces to the corresponding native bound; every
    value that coerces to [low] or to [high] is accepted; and every value
    whose coerced form is strictly below [low] or strictly above [high] is
    rejected with one error entry for that field. *)
Theorem inclusive_bounds (f : Field) (m : Pydantic.Model)
  (lo hi low high : Py.number) :
  is_numeric (field_type f) = true ->
  field_range f = [lo; hi] ->
  parameter_model f = Ok m ->
  compiled_range m = Some (low, high) ->
  Py.le low high = true ->
  let t := native_type (field_type f) in
  coerce t (Py.value_of_number lo) = inr (Py.value_of_number low) /\
  coerce t (Py.value_of_number hi) = inr (Py.value_of_number high) /\
  (forall item,
     coerce t item = inr (Py.value_of_number low) \/
     coerce t item = inr (Py.value_of_number high) ->
     call {| fields := [f] |} [item] =
       {| outcome := Ok (true, []); checked := [reported_name f] |}) /\
  (forall item c,
     coerce t item = inr (Py.value_of_number c) ->
     Py.lt c low = true \/ Py.gt c high = true ->
     exists msg,
       call {| fields := [f] |} [item] =
         {| outcome := Ok (false, [(msg, reported_name f)]);
            checked := [reported_name f] |}).
Proof.
  intros _ Hr Hm Hc Hle t.
  pose proof (numeric_schema_intro f m lo hi low high Hr Hm Hc) as Hn.
  pose proof (le_refl_of_le low high Hle) as Hrefl.
  destruct Hrefl as [Hlow Hhigh].
  repeat split.
  - subst t. destruct Hn as [g l -> _ Hg _ | g l -> _ Hg _].
    + exact (int_bound_coerce _ _ _ Hg).
    + exact (float_bound_coerce _ _ _ Hg).
  - subst t. destruct Hn as [g l -> _ _ Hl | g l -> _ _ Hl].
    + exact (int_bound_coerce _ _ _ Hl).
    + exact (float_bound_coerce _ _ _ Hl).
  - intros item [Hi | Hi].
    + exact (within_bounds_accepted f m lo hi low high low item
               Hn Hm Hi Hlow Hle).
    + exact (within_bounds_accepted f m lo hi low high high item
               Hn Hm Hi Hle Hhigh).
  - intros item c Hi Hout.
    exact (outside_bounds_rejected f m lo hi low high c item Hn Hm Hi Hout).
Qed.


End NumericFields.

Lemma inclusive_bounds_witness :
  let t := native_type (field_type STEP) in
  @coerce decimal_parsers t (Py.value_of_number (Py.Int 0)) =
    inr (Py.value_of_number (Py.Int 0)) /\
  @coerce decimal_parsers t (Py.value_of_number (Py.Int 10)) =
    inr (Py.value_of_number (Py.Int 10)) /\
  (forall item,
     @coerce decimal_parsers t item = inr (Py.value_of_number (Py.Int 0)) \/
     @coerce decimal_parsers t item = inr (Py.value_of_number (Py.Int 10)) ->
     @call decimal_parsers {| fields := [STEP] |} [item] =
       {| outcome := Ok (true, []); checked := [reported_name STEP] |}) /\
  (forall item c,
     @coerce decimal_parsers t item = inr (Py.value_of_number c) ->
     Py.lt c (Py.Int 0) = true \/ Py.gt c (Py.Int 10) = true ->
     exists msg,
       @call decimal_parsers {| fields := [STEP] |} [item] =
         {| outcome := Ok (false, [(msg, reported_name STEP)]);
            checked := [reported_name STEP] |}).
Proof.
  apply (@inclusive_bounds decimal_parsers STEP
           {| Pydantic.model_name := "parameter_STEP";
              Pydantic.value_schema := Pydantic.int_schema 0 10 |}
           (Py.Int 0) (Py.Int 10) (Py.Int 0) (Py.Int 10)); reflexivity.
Defined.

(** An [INT] field with bounds 0.5 and 10.5: the value 0.5, equal to the
    lower bound, is not accepted. *)
Lemma inclusive_bounds_counterexample :
  Field_new "FRACTION" INT "" [Py.Float half; Py.Float ten_and_half] =
    Ok FRACTION /\
  is_numeric (field_type FRACTION) = true /\
  outcome (@call decimal_parsers fraction_schema
             [Py.value_of_number (Py.Float half)]) <> Ok (true, []).
Proof. repeat split. discriminate. Qed.



(** ** Further properties of [Field] construction *)

Lemma Field_new_pair (name : string) (type : ArcType) (unit : string)
  (low high : Py.number) :
  Field_new name type unit [low; high] =
    if Py.ge low high
    then Raise (ValidationError [value_error [low; high] low high])
    else Ok {| field_name := name; field_type := type; field_unit := unit;
               field_range := [low; high] |}.
Proof.
  unfold Field_new, range_validator; simpl. now destruct (Py.ge low high).
Qed.

(** X1: construction succeeds exactly on a two-element range whose first
    bound is not [>=] the second, and then returns the arguments unchanged;
    name, type and unit are not examined. *)
Theorem Field_new_succeeds_iff (name : string) (type : ArcType)
  (unit : string) (range : list Py.number) (f : Field) :
  Field_new name type unit range = Ok f <->
  exists low high,
    range = [low; high] /\ Py.ge low high = false /\
    f = {| field_name := name; field_type := type; field_unit := unit;
           field_range := [low; high] |}.
Proof.
  unfold Field_new, range_validator. split.
  - destruct range as [|lo [|hi [|x rest]]]; simpl; try discriminate.
    destruct (Py.ge lo hi) eqn:Hge; simpl; [discriminate|].
    intros [= <-]. now exists lo, hi.
  - intros (lo & hi & -> & Hge & ->). simpl. now rewrite Hge.
Qed.

(** X2: a range with a NaN bound passes the range validator, on either
    side and whatever the other bound is, although the first bound is not
    below the second: every comparison with NaN is false. *)
Theorem nan_bound_is_accepted (name : string) (type : ArcType)
  (unit : string) (b : Py.number) :
  let nan := Py.Float S754_nan in
  Field_new name type unit [nan; b] =
    Ok {| field_name := name; field_type := type; field_unit := unit;
          field_range := [nan; b] |} /\
  Field_new name type unit [b; nan] =
    Ok {| field_name := name; field_type := type; field_unit := unit;
          field_range := [b; nan] |} /\
  Py.lt nan b = false /\ Py.lt b nan = false.
Proof.
  assert (H1 : Py.compare (Py.Float S754_nan) b = None) by reflexivity.
  assert (H2 : Py.compare b (Py.Float S754_nan) = None).
  { rewrite (compare_antisym (Py.Float S754_nan) b), H1. reflexivity. }
  intros nan. subst nan.
  rewrite !Field_new_pair. unfold Py.lt, Py.ge. rewrite H1, H2. auto.
Qed.

(** ** Further properties of [validate_record] *)

Lemma models_of_app (fs1 fs2 : list Field) :
  models_of (fs1 ++ fs2) =
    (ms1 <- models_of fs1 ;; ms2 <- models_of fs2 ;; Ok (ms1 ++ ms2)).
Proof.
  induction fs1 as [|f fs1 IH]; simpl.
  - now destruct (models_of fs2).
  - destruct (parameter_model f); simpl; [|reflexivity].
    rewrite IH. destruct (models_of fs1); simpl; [|reflexivity].
    now destruct (models_of fs2).
Qed.

Lemma combine_app_eq {A B} (l1 : list A) :
  forall (l2 : list A) (k1 k2 : list B),
    List.length l1 = List.length k1 ->
    combine (l1 ++ l2) (k1 ++ k2) = combine l1 k1 ++ combine l2 k2.
Proof.
  induction l1 as [|a l1 IH]; intros l2 [|b k1] k2 Hlen;
    try discriminate; simpl; [reflexivity|].
  injection Hlen as Hlen. now rewrite IH.
Qed.

Lemma no_text_in_string_app (fs1 fs2 : list Field) :
  forall r1 r2,
    List.length r1 = List.length fs1 ->
    no_text_in_string (fs1 ++ fs2) (r1 ++ r2) =
      no_text_in_string fs1 r1 && no_text_in_string fs2 r2.
Proof.
  induction fs1 as [|f fs1 IH]; intros [|item r1] r2 Hlen;
    try discriminate; simpl; [reflexivity|].
  injection Hlen as Hlen. now rewrite IH, andb_assoc.
Qed.

Lemma string_model (f : Field) (m : Pydantic.Model) :
  parameter_model f = Ok m ->
  field_type f = STRING ->
  exists ge le,
    m = {| Pydantic.model_name := reported_name f;
           Pydantic.value_schema := Pydantic.str_after_schema ge le |}.
Proof.
  intros Hm Ht. apply parameter_model_inv in Hm as (g & l & s & _ & Hs & ->).
  rewrite Ht in Hs; simpl in Hs. injection Hs as <-. now exists g, l.
Qed.

Section FurtherLoops.
Context {parsers : TextParsers}.

Lemma text_crashes (f : Field) (m : Pydantic.Model) (item : Py.value) :
  parameter_model f = Ok m ->
  text_in_string_field f item = true ->
  exists s, item = Py.VStr s /\
            Pydantic.validate m item =
              Pydantic.Crash (TypeError "ge" (Py.VStr s)).
Proof.
  intros Hm Htxt. unfold text_in_string_field in Htxt.
  destruct (field_type f) eqn:Ht; try discriminate.
  destruct item as [|s|]; try discriminate.
  destruct (string_model f m Hm Ht) as (g & l & ->). now exists s.
Qed.

Lemma validate_loop_prefix (fs1 : list Field) :
  forall ms1 r1 rest errors log,
    Forall2 (fun f m => parameter_model f = Ok m) fs1 ms1 ->
    List.length r1 = List.length fs1 ->
    no_text_in_string fs1 r1 = true ->
    validate_loop (combine r1 ms1 ++ rest) errors log =
      validate_loop rest (errors ++ expected_errors fs1 r1)
        (log ++ map reported_name fs1).
Proof.
  induction fs1 as [|f fs1 IH]; intros ms1 r1 rest errors log HF Hlen Hno.
  - inversion HF; subst. destruct r1; [|discriminate].
    simpl. now rewrite !app_nil_r.
  - inversion HF as [|? m ? ms' Hm HF']; subst.
    destruct r1 as [|item r1]; [discriminate|].
    simpl in Hlen, Hno. injection Hlen as Hlen.
    apply andb_prop in Hno as [Htxt Hno]. apply negb_true_iff in Htxt.
    pose proof (validate_total f m item Hm Htxt) as Htot.
    assert (Hname : Pydantic.model_name m = reported_name f).
    { apply parameter_model_inv in Hm as (? & ? & ? & _ & _ & ->).
      reflexivity. }
    simpl. unfold entry, rule_outcome. rewrite Hm, Hname.
    destruct (Pydantic.validate m item) as [v|msg|e].
    + rewrite (IH ms' r1 rest errors _ HF' Hlen Hno). simpl.
      now rewrite <- app_assoc.
    + rewrite (IH ms' r1 rest _ _ HF' Hlen Hno). simpl.
      now rewrite <- !app_assoc.
    + now contradiction (Htot e).
Qed.

Lemma validate_loop_text_raises (fs : list Field) :
  forall ms record errors log,
    Forall2 (fun f m => parameter_model f = Ok m) fs ms ->
    List.length record = List.length fs ->
    no_text_in_string fs record = false ->
    exists e, outcome (validate_loop (combine record ms) errors log) = Raise e.
Proof.
  induction fs as [|f fs IH]; intros ms record errors log HF Hlen Hno.
  - destruct record; discriminate.
  - inversion HF as [|? m ? ms' Hm HF']; subst.
    destruct record as [|item record]; [discriminate|].
    simpl in Hlen, Hno. injection Hlen as Hlen. simpl.
    destruct (text_in_string_field f item) eqn:Htxt; simpl in Hno.
    + destruct (text_crashes f m item Hm Htxt) as (s & -> & ->).
      simpl. eauto.
    + destruct (Pydantic.validate m item); simpl; eauto.
Qed.

(** What a call that returns has done. *)
Lemma returned_inv (self : ArcSchema) (record : list Py.value)
  (is_valid : bool) (errors : list (Msg * string)) :
  outcome (call self record) = Ok (is_valid, errors) ->
  builds self = true /\
  List.length record = List.length (fields self) /\
  no_text_in_string (fields self) record = true /\
  errors = expected_errors (fields self) record /\
  is_valid = is_empty errors /\
  checked (call self record) = map reported_name (fields self).
Proof.
  unfold builds. rewrite parameter_models_run, call_run; simpl.
  destruct (models_of (fields self)) as [ms|e] eqn:Hms; [|discriminate].
  pose proof (models_of_Forall2 _ _ Hms) as HF.
  rewrite (models_of_length _ _ Hms).
  destruct (Nat.eqb_spec (List.length record) (List.length (fields self)))
    as [Hlen|Hlen]; simpl; [|discriminate].
  destruct (no_text_in_string (fields self) record) eqn:Hno.
  - rewrite (validate_loop_spec _ ms record [] [] HF Hlen Hno); simpl.
    destruct (expected_errors (fields self) record); simpl;
      intros [= <- <-]; repeat split; exact Hlen.
  - destruct (validate_loop_text_raises _ ms record [] [] HF Hlen Hno)
      as [e He].
    rewrite He. discriminate.
Qed.

End FurtherLoops.

Section Identifiers.
Context {parsers : TextParsers}.

Lemma expected_errors_provenance (fs : list Field) :
  forall record,
    Forall (fun e => exists f item,
                In (f, item) (combine fs record) /\
                rule_outcome f item = Pydantic.Invalid (fst e) /\
                snd e = reported_name f)
           (expected_errors fs record).
Proof.
  induction fs as [|f fs IH]; intros [|item record]; simpl;
    try constructor.
  apply Forall_app. split.
  - unfold entry. destruct (rule_outcome f item) as [v|msg|e] eqn:Hr;
      constructor; [|constructor].
    exists f, item. simpl. auto.
  - eapply Forall_impl; [|apply IH].
    intros e (f' & item' & Hin & Hr & Hn). exists f', item'. simpl. auto.
Qed.

(** C6, amended: the returned error list is the list of the entries of
    the failing positions, in field order, and each entry identifies the
    field that failed: its message is the one with which that field's rule
    rejects the value at the field's position, and its identifier is the
    generated model name of that field, [parameter_] followed by the
    field's name.  For the schema with STEP (Int, 0..10) and HEIGHT
    (Double, 0..100), the record [15, 50.0] yields one entry, with
    identifier [parameter_STEP]. *)
Theorem entries_name_the_model (self : ArcSchema) (record : list Py.value)
  (is_valid : bool) (errors : list (Msg * string)) :
  outcome (call self record) = Ok (is_valid, errors) ->
  errors = expected_errors (fields self) record /\
  Forall (fun e => exists f item,
              In (f, item) (combine (fields self) record) /\
              rule_outcome f item = Pydantic.Invalid (fst e) /\
              snd e = reported_name f)
         errors /\
  outcome (call example_schema [Py.VInt 15; Py.VFloat (float_literal 50)]) =
    Ok (false, [(less_than_equal (Py.Int 10), "parameter_STEP"%string)]).
Proof.
  intros H. apply returned_inv in H as (_ & _ & _ & -> & _ & _).
  split; [reflexivity|]. split; [apply expected_errors_provenance|].
  reflexivity.
Qed.

End Identifiers.

Lemma entries_name_the_model_witness :
  [(less_than_equal (Py.Int 10), "parameter_STEP"%string)] =
    @expected_errors decimal_parsers (fields example_schema)
      [Py.VInt 15; Py.VFloat (float_literal 50)] /\
  Forall (fun e => exists f item,
              In (f, item)
                 (combine (fields example_schema)
                    [Py.VInt 15; Py.VFloat (float_literal 50)]) /\
              @rule_outcome decimal_parsers f item =
                Pydantic.Invalid (fst e) /\
              snd e = reported_name f)
         [(less_than_equal (Py.Int 10), "parameter_STEP"%string)] /\
  outcome (@call decimal_parsers example_schema
             [Py.VInt 15; Py.VFloat (float_literal 50)]) =
    Ok (false, [(less_than_equal (Py.Int 10), "parameter_STEP"%string)]).
Proof.
  apply (@entries_name_the_model decimal_parsers example_schema
           [Py.VInt 15; Py.VFloat (float_literal 50)] false).
  reflexivity.
Defined.

Lemma split_record {A} (fs1 : list Field) (f : Field) (fs2 : list Field) :
  forall record : list A,
    List.length record = List.length (fs1 ++ f :: fs2) ->
    exists r1 item r2,
      record = r1 ++ item :: r2 /\
      List.length r1 = List.length fs1 /\ List.length r2 = List.length fs2.
Proof.
  induction fs1 as [|f1 fs1 IH]; intros [|a record] Hlen; try discriminate.
  - exists [], a, record. simpl in *. auto.
  - simpl in Hlen. injection Hlen as Hlen.
    destruct (IH record Hlen) as (r1 & item & r2 & -> & H1 & H2).
    exists (a :: r1), item, r2. simpl. auto.
Qed.

Section Returns.
Context {parsers : TextParsers}.

Lemma call_checked_run (self : ArcSchema) (record : list Py.value)
  (ms : list Pydantic.Model) :
  models_of (fields self) = Ok ms ->
  List.length record = List.length (fields self) ->
  no_text_in_string (fields self) record = true ->
  call self record =
    {| outcome :=
         Ok (is_empty (expected_errors (fields self) record),
             expected_errors (fields self) record);
       checked := map reported_name (fields self) |}.
Proof.
  intros Hms Hlen Hno. rewrite call_run, Hms.
  rewrite (models_of_length _ _ Hms), Hlen, Nat.eqb_refl; simpl.
  rewrite (validate_loop_spec (fields self) ms record [] []
             (models_of_Forall2 _ _ Hms) Hlen Hno); simpl.
  now destruct (expected_errors (fields self) record).
Qed.

(** X3: [validate_record] returns a pair exactly when the parameter
    models can be built, the record has as many values as the schema has
    fields, and no [STRING] field is offered a text value; in every other
    case it raises. *)
Theorem returns_iff (self : ArcSchema) (record : list Py.value) :
  (exists pair, outcome (call self record) = Ok pair) <->
  builds self = true /\
  List.length record = List.length (fields self) /\
  no_text_in_string (fields self) record = true.
Proof.
  split.
  - intros [[is_valid errors] H]. apply returned_inv in H. tauto.
  - intros (Hb & Hlen & Hno). destruct (builds_models_of self Hb) as [ms Hms].
    rewrite (call_checked_run self record ms Hms Hlen Hno); simpl. eauto.
Qed.

Lemma accepted_spec (fs : list Field) :
  forall ms record,
    Forall2 (fun f m => parameter_model f = Ok m) fs ms ->
    List.length record = List.length fs ->
    all_accepted fs record =
      no_text_in_string fs record && is_empty (expected_errors fs record).
Proof.
  induction fs as [|f fs IH]; intros ms record HF Hlen.
  - destruct record; reflexivity.
  - inversion HF as [|? m ? ms' Hm HF']; subst.
    destruct record as [|item record]; [discriminate|].
    simpl in Hlen. injection Hlen as Hlen. simpl.
    rewrite (IH ms' record HF' Hlen).
    unfold accepted, entry, rule_outcome. rewrite Hm.
    destruct (text_in_string_field f item) eqn:Htxt; simpl.
    + destruct (text_crashes f m item Hm Htxt) as (s & -> & ->). reflexivity.
    + pose proof (validate_total f m item Hm Htxt) as Htot.
      destruct (Pydantic.validate m item) as [v|msg|e]; simpl.
      * reflexivity.
      * now rewrite andb_false_r.
      * now contradiction (Htot e).
Qed.

(** X4: [validate_record] returns [(True, [])] exactly when the models can
    be built, the lengths agree and every value is accepted by the rule of
    the field at its position. *)
Theorem valid_iff_all_accepted (self : ArcSchema) (record : list Py.value) :
  outcome (call self record) = Ok (true, []) <->
  builds self = true /\
  List.length record = List.length (fields self) /\
  all_accepted (fields self) record = true.
Proof.
  split.
  - intros H. apply returned_inv in H as (Hb & Hlen & Hno & He & _ & _).
    destruct (builds_models_of self Hb) as [ms Hms].
    rewrite (accepted_spec _ ms record (models_of_Forall2 _ _ Hms) Hlen).
    now rewrite Hno, <- He.
  - intros (Hb & Hlen & Hacc).
    destruct (builds_models_of self Hb) as [ms Hms].
    rewrite (accepted_spec _ ms record (models_of_Forall2 _ _ Hms) Hlen)
      in Hacc.
    apply andb_prop in Hacc as [Hno Hemp].
    rewrite (call_checked_run self record ms Hms Hlen Hno); simpl.
    now destruct (expected_errors (fields self) record).
Qed.

(** X5: a schema that has a [STRING] field accepts no record: whatever
    the record, [validate_record] does not return [(True, [])]. *)
Theorem string_field_never_valid (self : ArcSchema) (f : Field)
  (record : list Py.value) :
  In f (fields self) ->
  field_type f = STRING ->
  outcome (call self record) <> Ok (true, []).
Proof.
  intros Hin Ht H. apply returned_inv in H as (Hb & Hlen & Hno & He & _ & _).
  destruct (builds_models_of self Hb) as [ms Hms].
  destruct (models_of_In _ ms f Hms Hin) as [m Hm].
  apply in_split in Hin as (fs1 & fs2 & Hfs). rewrite Hfs in *.
  destruct (split_record fs1 f fs2 record Hlen)
    as (r1 & item & r2 & -> & H1 & H2).
  rewrite (no_text_in_string_app fs1 (f :: fs2) r1 (item :: r2) H1) in Hno.
  rewrite (expected_errors_app fs1 (f :: fs2) r1 (item :: r2) H1) in He.
  apply andb_prop in Hno as [_ Hno]. simpl in Hno, He.
  apply andb_prop in Hno as [Htxt _]. apply negb_true_iff in Htxt.
  destruct (string_model f m Hm Ht) as (g & l & ->).
  unfold entry, rule_outcome in He. rewrite Hm in He.
  unfold text_in_string_field in Htxt. rewrite Ht in Htxt.
  destruct item as [z|s|x]; try discriminate;
    simpl in He; now destruct (expected_errors fs1 r1).
Qed.

(** X6: when a [STRING] field is offered text, and no [STRING] field
    before it is, the call raises [TypeError] for that text; the fields
    after it are not checked and the entries collected before it are not
    returned. *)
Theorem first_text_raises (self : ArcSchema) (fs1 fs2 : list Field)
  (f : Field) (r1 r2 : list Py.value) (text : string) :
  builds self = true ->
  fields self = fs1 ++ f :: fs2 ->
  field_type f = STRING ->
  List.length r1 = List.length fs1 ->
  List.length r2 = List.length fs2 ->
  no_text_in_string fs1 r1 = true ->
  call self (r1 ++ Py.VStr text :: r2) =
    {| outcome := Raise (TypeError "ge" (Py.VStr text));
       checked := map reported_name (fs1 ++ [f]) |}.
Proof.
  intros Hb Hfs Ht H1 H2 Hno. rewrite call_run.
  destruct (builds_models_of self Hb) as [ms Hms]. rewrite Hms.
  rewrite (models_of_length _ _ Hms), Hfs, !length_app; simpl.
  rewrite H1, H2, Nat.eqb_refl; simpl.
  rewrite Hfs, models_of_app in Hms; simpl in Hms.
  destruct (models_of fs1) as [ms1|] eqn:Hms1; simpl in Hms; [|discriminate].
  destruct (parameter_model f) as [m|] eqn:Hm; simpl in Hms; [|discriminate].
  destruct (models_of fs2) as [ms2|] eqn:Hms2; simpl in Hms; [|discriminate].
  injection Hms as <-.
  rewrite combine_app_eq
    by (now rewrite (models_of_length _ _ Hms1)).
  rewrite (validate_loop_prefix fs1 ms1 r1 _ [] []
             (models_of_Forall2 _ _ Hms1) H1 Hno).
  destruct (string_model f m Hm Ht) as (g & l & ->). simpl.
  now rewrite map_app.
Qed.

(** X7: validation is positional: when a record validates against one
    schema and another record against a second schema without raising, the
    concatenated record against the concatenated schema gives the
    conjunction of the verdicts and the concatenation of the error lists
    and of the checks. *)
Theorem validation_composes (fs1 fs2 : list Field) (r1 r2 : list Py.value)
  (valid1 valid2 : bool) (errors1 errors2 : list (Msg * string)) :
  outcome (call {| fields := fs1 |} r1) = Ok (valid1, errors1) ->
  outcome (call {| fields := fs2 |} r2) = Ok (valid2, errors2) ->
  call {| fields := fs1 ++ fs2 |} (r1 ++ r2) =
    {| outcome := Ok (valid1 && valid2, errors1 ++ errors2);
       checked := checked (call {| fields := fs1 |} r1) ++
                  checked (call {| fields := fs2 |} r2) |}.
Proof.
  intros Ha Hb.
  apply returned_inv in Ha as (Hb1 & Hl1 & Hn1 & -> & -> & ->).
  apply returned_inv in Hb as (Hb2 & Hl2 & Hn2 & -> & -> & ->).
  simpl in *.
  destruct (builds_models_of _ Hb1) as [ms1 Hms1].
  destruct (builds_models_of _ Hb2) as [ms2 Hms2]. simpl in *.
  rewrite (call_checked_run {| fields := fs1 ++ fs2 |} (r1 ++ r2)
             (ms1 ++ ms2)); simpl.
  - rewrite (expected_errors_app fs1 fs2 r1 r2 Hl1), map_app.
    now destruct (expected_errors fs1 r1), (expected_errors fs2 r2).
  - now rewrite models_of_app, Hms1, Hms2.
  - rewrite !length_app. lia.
  - now rewrite (no_text_in_string_app fs1 fs2 r1 r2 Hl1), Hn1, Hn2.
Qed.

End Returns.

(** ** What the result does not depend on *)

Lemma models_of_ext (g : Field -> Field) :
  (forall f, parameter_model (g f) = parameter_model f) ->
  forall fs, models_of (map g fs) = models_of fs.
Proof.
  intros Hg fs. induction fs as [|f fs IH]; simpl; [reflexivity|].
  now rewrite Hg, IH.
Qed.

Section Irrelevance.
Context {parsers : TextParsers}.

(** X8: the units of the fields play no part in validation: replacing
    them, field by field, changes nothing in what [validate_record] does. *)
Theorem unit_is_not_interpreted (unit : Field -> string) (fs : list Field)
  (record : list Py.value) :
  call {| fields := map (with_unit unit) fs |} record =
    call {| fields := fs |} record.
Proof.
  rewrite !call_run; simpl.
  now rewrite (models_of_ext (with_unit unit)).
Qed.

(** X9: [DOUBLE] and [FLOAT] are the same type to the validator:
    exchanging them in any fields of a schema changes nothing in what
    [validate_record] does. *)
Theorem double_and_float_validate_alike (fs : list Field)
  (record : list Py.value) :
  call {| fields := map swap_double_float fs |} record =
    call {| fields := fs |} record.
Proof.
  rewrite !call_run; simpl.
  rewrite (models_of_ext swap_double_float); [reflexivity|].
  intros f. unfold parameter_model, swap_double_float; simpl.
  now destruct (field_type f).
Qed.

End Irrelevance.

(** ** Which bound is reported *)

Lemma integral_value_compare (x : Py.float) (g z : Z) :
  Py.integral_value x = Some g ->
  Py.compare (Py.Int z) (Py.Float x) = Some (z ?= g).
Proof.
  unfold Py.integral_value, Py.compare; simpl.
  destruct (Py.xreal_of_float x) as [| |m e]; try discriminate.
  simpl. unfold Py.fin_compare.
  destruct (Z.leb_spec 0 e) as [He|He].
  - intros [= <-]. rewrite Z.min_l by lia.
    now rewrite !Z.sub_0_r, Z.mul_1_r.
  - destruct (Z.eqb_spec (m mod 2 ^ (- e)) 0) as [Hmod|]; [|discriminate].
    intros [= <-]. rewrite Z.min_r by lia.
    rewrite Z.sub_diag, Z.mul_1_r, Z.sub_0_l.
    assert (Hp : 0 < 2 ^ (- e)) by (apply Z.pow_pos_nonneg; lia).
    rewrite (Z.div_mod m (2 ^ (- e))) at 1 by lia.
    rewrite Hmod, Z.add_0_r, (Z.mul_comm (2 ^ (- e))).
    f_equal. symmetry. apply Zmult_compare_compat_r. lia.
Qed.

Lemma int_bound_compare (c : string) (b : Py.number) (g z : Z) :
  Pydantic.int_bound c b = Ok g ->
  Py.compare (Py.Int z) b = Some (z ?= g).
Proof.
  destruct b as [y|x]; simpl.
  - intros [= <-]. apply int_compare.
  - unfold Pydantic.float_as_int.
    destruct (negb (Py.is_finite x)); [discriminate|].
    destruct (Py.integral_value x) as [y|] eqn:Hy; [|discriminate].
    destruct (_ && _); [|discriminate].
    intros [= <-]. now apply integral_value_compare.
Qed.

Section Reports.
Context {parsers : TextParsers}.

(** X10: for a numeric field whose model can be built, a value whose
    coerced form is not [<=] the upper bound (it is above the bound, or one
    of the two is a NaN) is reported with the less-than-or-equal message
    carrying that bound; a value that is [<=] the upper bound and not [>=]
    the lower bound is reported with the greater-than-or-equal message
    carrying the lower bound. *)
Theorem violated_bound_is_reported (f : Field) (m : Pydantic.Model)
  (lo hi low high c : Py.number) (item : Py.value) :
  field_range f = [lo; hi] ->
  parameter_model f = Ok m ->
  compiled_range m = Some (low, high) ->
  coerce (native_type (field_type f)) item = inr (Py.value_of_number c) ->
  (Py.le c high = false ->
   call {| fields := [f] |} [item] = rejected_with f (less_than_equal high)) /\
  (Py.le c high = true -> Py.ge c low = false ->
   call {| fields := [f] |} [item] =
     rejected_with f (greater_than_equal low)).
Proof.
  intros Hr Hm Hc Hi.
  pose proof (numeric_schema_intro f m lo hi low high Hr Hm Hc) as Hn.
  rewrite (call_single f m item Hm). unfold Pydantic.validate, rejected_with.
  destruct Hn as [g l Ht Hs _ _ | g l Ht Hs _ _]; rewrite Ht in Hi; rewrite Hs;
    simpl.
  - apply coerce_int_inv in Hi as (z & Hz & ->).
    destruct c as [z'|]; [|discriminate]. injection Hz as ->.
    rewrite int_le, int_ge. split.
    + intros Hle. apply Z.leb_gt in Hle.
      destruct (Z.ltb_spec l z); [reflexivity | lia].
    + intros Hle Hge. apply Z.leb_le in Hle. apply Z.leb_gt in Hge.
      destruct (Z.ltb_spec l z); [lia|].
      destruct (Z.ltb_spec z g); [reflexivity | lia].
  - apply coerce_float_inv in Hi as (x & Hx & ->).
    destruct c as [|x']; [discriminate|]. injection Hx as ->.
    unfold Py.float_le, Py.float_ge. split.
    + now intros ->.
    + now intros -> ->.
Qed.

(** X11: an [INT] field accepts only values whose integer form lies
    within the declared bounds, both inclusive, also when a bound is
    declared as a float. *)
Theorem accepted_int_within_declared_bounds (f : Field) (lo hi : Py.number)
  (item : Py.value) :
  field_type f = INT ->
  field_range f = [lo; hi] ->
  outcome (call {| fields := [f] |} [item]) = Ok (true, []) ->
  exists z,
    coerce py_int item = inr (Py.VInt z) /\
    Py.le lo (Py.Int z) = true /\ Py.le (Py.Int z) hi = true.
Proof.
  intros Ht Hr H.
  destruct (parameter_model f) as [m|e] eqn:Hm.
  2:{ rewrite call_run in H. simpl in H. rewrite Hm in H. discriminate. }
  rewrite (call_single f m item Hm) in H.
  pose proof Hm as Hinv.
  apply parameter_model_inv in Hinv as (g0 & l0 & s & Hr' & Hs & ->).
  rewrite Hr in Hr'. simpl in Hr'. injection Hr' as <- <-.
  rewrite Ht in Hs; simpl in Hs.
  destruct (Pydantic.int_bound "le" hi) as [l|] eqn:Hl; simpl in Hs;
    [|discriminate].
  destruct (Pydantic.int_bound "ge" lo) as [g|] eqn:Hg; simpl in Hs;
    [|discriminate].
  injection Hs as <-. unfold Pydantic.validate in H; simpl in H.
  unfold coerce.
  destruct (Pydantic.validate_int item) as [msg|z]; [discriminate|].
  exists z. split; [reflexivity|].
  destruct (Z.ltb_spec l z); [discriminate|].
  destruct (Z.ltb_spec z g); [discriminate|].
  unfold Py.le. rewrite (compare_antisym (Py.Int z) lo).
  rewrite (int_bound_compare _ lo g z Hg), (int_bound_compare _ hi l z Hl).
  simpl. split.
  - destruct (Z.compare_spec z g); simpl; auto; lia.
  - destruct (Z.compare_spec z l); simpl; auto; lia.
Qed.

(** X12: an [INT] field rejects every finite float that has a fractional
    part, whatever the field's range, with the single entry "got a number
    with a fractional part". *)
Theorem fractional_float_rejected_by_int_field (f : Field)
  (m : Pydantic.Model) (x : Py.float) :
  field_type f = INT ->
  parameter_model f = Ok m ->
  Py.is_finite x = true ->
  Py.integral_value x = None ->
  call {| fields := [f] |} [Py.VFloat x] = rejected_with f int_from_float.
Proof.
  intros Ht Hm Hfin Hfrac. rewrite (call_single f m _ Hm).
  apply parameter_model_inv in Hm as (g0 & l0 & s & _ & Hs & ->).
  rewrite Ht in Hs; simpl in Hs.
  destruct (Pydantic.int_bound "le" l0); simpl in Hs; [|discriminate].
  destruct (Pydantic.int_bound "ge" g0); simpl in Hs; [|discriminate].
  injection Hs as <-. unfold Pydantic.validate; simpl.
  unfold Pydantic.float_as_int. now rewrite Hfin, Hfrac.
Qed.

End Reports.

(** ** Instances of the further properties *)

Lemma Field_new_succeeds_iff_witness :
  Field_new "STEP" INT "" [Py.Int 0; Py.Int 10] = Ok STEP.
Proof.
  apply (proj2 (Field_new_succeeds_iff "STEP" INT ""
                  [Py.Int 0; Py.Int 10] STEP)).
  exists (Py.Int 0), (Py.Int 10). repeat split.
Defined.

Lemma returns_iff_witness :
  exists pair,
    outcome (@call decimal_parsers example_schema
               [Py.VInt 15; Py.VFloat (float_literal 50)]) = Ok pair.
Proof.
  apply (proj2 (@returns_iff decimal_parsers example_schema
                  [Py.VInt 15; Py.VFloat (float_literal 50)])).
  repeat split.
Defined.

Lemma valid_iff_all_accepted_witness :
  outcome (@call decimal_parsers example_schema
             [Py.VInt 5; Py.VFloat (float_literal 50)]) = Ok (true, []).
Proof.
  apply (proj2 (@valid_iff_all_accepted decimal_parsers example_schema
                  [Py.VInt 5; Py.VFloat (float_literal 50)])).
  repeat split.
Defined.

Lemma string_field_never_valid_witness :
  outcome (@call decimal_parsers step_name_schema [Py.VInt 5; Py.VInt 7]) <>
    Ok (true, []).
Proof.
  apply (@string_field_never_valid decimal_parsers step_name_schema NAME).
  - simpl. auto.
  - reflexivity.
Defined.

Lemma first_text_raises_witness :
  @call decimal_parsers step_name_schema
    ([Py.VStr "x"] ++ Py.VStr "abc" :: []) =
    {| outcome := Raise (TypeError "ge" (Py.VStr "abc"));
       checked := map reported_name ([STEP] ++ [NAME]) |}.
Proof.
  apply (@first_text_raises decimal_parsers step_name_schema
           [STEP] [] NAME [Py.VStr "x"] [] "abc"); reflexivity.
Defined.

Lemma validation_composes_witness :
  @call decimal_parsers {| fields := [STEP] ++ [HEIGHT] |}
    ([Py.VInt 15] ++ [Py.VFloat (float_literal 50)]) =
    {| outcome :=
         Ok (false && true,
             [(less_than_equal (Py.Int 10), "parameter_STEP"%string)] ++ []);
       checked :=
         checked (@call decimal_parsers {| fields := [STEP] |} [Py.VInt 15])
         ++ checked (@call decimal_parsers {| fields := [HEIGHT] |}
                       [Py.VFloat (float_literal 50)]) |}.
Proof.
  apply (@validation_composes decimal_parsers [STEP] [HEIGHT]
           [Py.VInt 15] [Py.VFloat (float_literal 50)]); reflexivity.
Defined.

Lemma violated_bound_is_reported_witness :
  @call decimal_parsers {| fields := [STEP] |} [Py.VInt 15] =
    rejected_with STEP (less_than_equal (Py.Int 10)) /\
  @call decimal_parsers {| fields := [STEP] |} [Py.VInt (-1)] =
    rejected_with STEP (greater_than_equal (Py.Int 0)) /\
  @call decimal_parsers
    {| fields := [{| field_name := "HEIGHT"; field_type := DOUBLE;
                     field_unit := "m";
                     field_range := [Py.Int 5; Py.Float S754_nan] |}] |}
    [Py.VFloat (float_literal 3)] =
    rejected_with
      {| field_name := "HEIGHT"; field_type := DOUBLE; field_unit := "m";
         field_range := [Py.Int 5; Py.Float S754_nan] |}
      (less_than_equal (Py.Float S754_nan)).
Proof.
  split; [|split].
  3:{ apply (@violated_bound_is_reported decimal_parsers
               {| field_name := "HEIGHT"; field_type := DOUBLE;
                  field_unit := "m";
                  field_range := [Py.Int 5; Py.Float S754_nan] |}
               {| Pydantic.model_name := "parameter_HEIGHT";
                  Pydantic.value_schema :=
                    Pydantic.float_schema (float_literal 5) S754_nan |}
               (Py.Int 5) (Py.Float S754_nan)
               (Py.Float (float_literal 5)) (Py.Float S754_nan)
               (Py.Float (float_literal 3))
               (Py.VFloat (float_literal 3))); reflexivity. }
  - apply (@violated_bound_is_reported decimal_parsers STEP
             {| Pydantic.model_name := "parameter_STEP";
                Pydantic.value_schema := Pydantic.int_schema 0 10 |}
             (Py.Int 0) (Py.Int 10) (Py.Int 0) (Py.Int 10) (Py.Int 15)
             (Py.VInt 15)); reflexivity.
  - apply (@violated_bound_is_reported decimal_parsers STEP
             {| Pydantic.model_name := "parameter_STEP";
                Pydantic.value_schema := Pydantic.int_schema 0 10 |}
             (Py.Int 0) (Py.Int 10) (Py.Int 0) (Py.Int 10) (Py.Int (-1))
             (Py.VInt (-1))); reflexivity.
Defined.

Lemma accepted_int_within_declared_bounds_witness :
  exists z,
    @coerce decimal_parsers py_int (Py.VStr "5") = inr (Py.VInt z) /\
    Py.le (Py.Float (float_literal 0)) (Py.Int z) = true /\
    Py.le (Py.Int z) (Py.Int 10) = true.
Proof.
  apply (@accepted_int_within_declared_bounds decimal_parsers
           {| field_name := "STEP"; field_type := INT; field_unit := "";
              field_range := [Py.Float (float_literal 0); Py.Int 10] |}
           (Py.Float (float_literal 0)) (Py.Int 10) (Py.VStr "5"));
    reflexivity.
Defined.

Lemma fractional_float_rejected_by_int_field_witness :
  @call decimal_parsers {| fields := [STEP] |} [Py.VFloat half] =
    rejected_with STEP int_from_float.
Proof.
  apply (@fractional_float_rejected_by_int_field decimal_parsers STEP
           {| Pydantic.model_name := "parameter_STEP";
              Pydantic.value_schema := Pydantic.int_schema 0 10 |} half);
    reflexivity.
Defined.

(** ** Purity *)

Lemma runtime_parameter_model (field : Field) (st : Runtime.state) :
  exists r st',
    Runtime.parameter_model field st = (r, st') /\
    Runtime.self st' = Runtime.self st /\
    match r, parameter_model field with
    | Ok o, Ok m => Runtime.class_model o = m
    | Raise e, Raise e' => e = e'
    | _, _ => False
    end.
Proof.
  unfold Runtime.parameter_model, parameter_model, Runtime.ret.
  destruct (index (field_range field) 0) as [ge|e]; simpl; [|eauto].
  destruct (index (field_range field) 1) as [le|e]; simpl; [|eauto].
  unfold Runtime.create_model.
  destruct (Pydantic.create_model _ _) as [m|e]; simpl; eauto.
Qed.

Lemma runtime_parameter_models_loop (fs : list Field) :
  forall acc st,
    exists r st',
      Runtime.parameter_models_loop fs acc st = (r, st') /\
      Runtime.self st' = Runtime.self st /\
      same_models r
        (ms <- models_of fs ;; Ok (map Runtime.class_model acc ++ ms)).
Proof.
  induction fs as [|f fs IH]; intros acc st; simpl.
  - exists (Ok acc), st. unfold Runtime.ret. simpl.
    now rewrite app_nil_r.
  - unfold Runtime.bind.
    destruct (runtime_parameter_model f st) as (r & st1 & -> & Hself & Hr).
    destruct r as [o|e], (parameter_model f) as [m|e']; try contradiction;
      simpl.
    + destruct (IH (acc ++ [o]) st1) as (r' & st2 & -> & Hself' & Hr').
      exists r', st2. split; [reflexivity|]. split; [congruence|].
      rewrite map_app in Hr'. simpl in Hr'. rewrite Hr in Hr'.
      destruct (models_of fs) as [ms|e]; simpl in *; [|exact Hr'].
      now rewrite <- app_assoc in Hr'.
    + exists (Raise e), st1. unfold Runtime.ret. now subst.
Qed.

Lemma runtime_parameter_models (st : Runtime.state) :
  exists r st',
    Runtime.parameter_models st = (r, st') /\
    Runtime.self st' = Runtime.self st /\
    same_models r (models_of (fields (Runtime.self st))).
Proof.
  unfold Runtime.parameter_models, Runtime.bind, Runtime.get_fields.
  destruct (runtime_parameter_models_loop (fields (Runtime.self st)) [] st)
    as (r & st' & -> & Hself & Hr).
  exists r, st'. split; [reflexivity|]. split; [exact Hself|].
  simpl in Hr. now destruct (models_of (fields (Runtime.self st))).
Qed.

Section Purity.
Context {parsers : TextParsers}.

(** Whatever classes exist already, the running method computes what the
    method computes on the schema alone, and leaves the schema as it is. *)
Lemma runtime_validate_record (record : list Py.value)
  (st : Runtime.state) :
  exists st',
    Runtime.validate_record record st = (call (Runtime.self st) record, st')
    /\ Runtime.self st' = Runtime.self st.
Proof.
  unfold Runtime.validate_record, Runtime.bind. rewrite call_run.
  destruct (runtime_parameter_models st) as (r1 & st1 & -> & Hs1 & Hr1).
  destruct r1 as [os1|e1], (models_of (fields (Runtime.self st)))
    as [ms|e] eqn:Hms; try contradiction; simpl in Hr1.
  2:{ subst. unfold Runtime.ret. eauto. }
  assert (Hlen1 : List.length os1 = List.length ms).
  { now rewrite <- Hr1, length_map. }
  rewrite Hlen1.
  destruct (runtime_parameter_models st1) as (r2 & st2 & Hrun & Hs2 & Hr2).
  rewrite Hs1, Hms in Hr2.
  destruct r2 as [os2|e2]; try contradiction; simpl in Hr2.
  destruct (negb _); rewrite Hrun; unfold Runtime.ret, Runtime.loop.
  - exists st2. split; [|congruence].
    now rewrite <- Hr2, length_map.
  - exists st2. split; [|congruence]. now rewrite Hr2.
Qed.

(** C8: two calls of [validate_record] on the same schema with the same
    record give the same result, whatever the state of the running program
    at the first call and although each call creates new model classes:
    the result is that of the method on the schema alone, and the schema's
    fields are the same after each call as before it. *)
Theorem validate_record_deterministic (record : list Py.value)
  (st : Runtime.state) :
  let (first, st1) := Runtime.validate_record record st in
  let (second, st2) := Runtime.validate_record record st1 in
  first = second /\
  first = call (Runtime.self st) record /\
  fields (Runtime.self st1) = fields (Runtime.self st) /\
  fields (Runtime.self st2) = fields (Runtime.self st).
Proof.
  destruct (runtime_validate_record record st) as (st1 & -> & Hs1).
  destruct (runtime_validate_record record st1) as (st2 & -> & Hs2).
  rewrite Hs2, Hs1. auto.
Qed.

End Purity.

(** The state of the running program does change: validating one record
    against the two-field schema creates four model classes. *)
Lemma validate_record_creates_classes :
  Runtime.created
    (snd (@Runtime.validate_record decimal_parsers
            [Py.VInt 5; Py.VFloat (float_literal 50)]
            {| Runtime.self := example_schema; Runtime.created := 0 |})) =
    4%nat.
Proof. reflexivity. Qed.
